(** * ShiftIt release automation (fabfile.py): a shallow embedding

    The release script is a Python module.  Its functions are embedded here
    as Rocq functions over Python-like data: [string] for [str], [Z] for
    [int], records for the tracker objects, an exception-and-state monad for
    the code that prints, writes files, calls external tools or raises.
    A character of a [string] stands for the code point with its number:
    the texts of the model are the Python texts of code points below 256.

    Layout: (1) Python string primitives, (2) Python scalars and the [%]
    operator, (3) the logic-template renderer used through
    [pystache.render], (4) the module itself: the host it talks to, its
    configuration, templates, helpers and tasks, (5) the properties, one
    theorem for each of the claims C1 to C10, (6) further properties of
    the module; the theorem of C3 rests on the lemmas of (6) and closes
    the file. *)

From Stdlib Require Import String Ascii List ZArith Bool Lia DecimalString.
From Stdlib Require Import Permutation Sorted.
Import ListNotations.
Open Scope string_scope.

(* ===================================================================== *)
(** * 1. Python string primitives                                         *)
(* ===================================================================== *)

Module PyString.

(** [s.startswith(p)] *)
Fixpoint startswith (s p : string) {struct p} : bool :=
  match p with
  | EmptyString => true
  | String c p' =>
      match s with
      | EmptyString => false
      | String d s' => Ascii.eqb d c && startswith s' p'
      end
  end.

(** [s[n:]] *)
Fixpoint drop (n : nat) (s : string) : string :=
  match n with
  | O => s
  | S n' => match s with
            | EmptyString => EmptyString
            | String _ s' => drop n' s'
            end
  end.

(** [s.endswith(suf)]: the last [len(suf)] characters of [s] are [suf]. *)
Definition endswith (s suf : string) : bool :=
  (String.length suf <=? String.length s)%nat
  && String.eqb (drop (String.length s - String.length suf) s) suf.

(** The characters [str.strip()] removes, those for which [str.isspace]
    holds.  Among the code points below 256 they are TAB, LF, VT, FF, CR,
    the separators FS, GS, RS, US, the space, the next-line control (133)
    and the no-break space (160). *)
Definition isspace (c : ascii) : bool :=
  let n := nat_of_ascii c in
  ((9 <=? n) && (n <=? 13) || (28 <=? n) && (n <=? 32)
   || (n =? 133) || (n =? 160))%nat.

(** [s.lstrip()] *)
Fixpoint lstrip (s : string) : string :=
  match s with
  | EmptyString => EmptyString
  | String c s' => if isspace c then lstrip s' else s
  end.

(** [s.rstrip()]: a character is kept when something non-blank follows
    or when it is itself non-blank. *)
Fixpoint rstrip (s : string) : string :=
  match s with
  | EmptyString => EmptyString
  | String c s' =>
      match rstrip s' with
      | EmptyString => if isspace c then EmptyString else String c EmptyString
      | r => String c r
      end
  end.

(** [s.strip()] *)
Definition strip (s : string) : string := rstrip (lstrip s).

(** [needle in s] *)
Fixpoint contains (s needle : string) : bool :=
  startswith s needle
  || match s with
     | EmptyString => false
     | String _ s' => contains s' needle
     end.

(** [c * n] for a one-character string *)
Fixpoint repeat (c : ascii) (n : nat) : string :=
  match n with
  | O => EmptyString
  | S n' => String c (repeat c n')
  end.

Definition nl : string := String (ascii_of_nat 10) EmptyString.
Definition tab : string := String (ascii_of_nat 9) EmptyString.
Definition dq : string := String (ascii_of_nat 34) EmptyString.
Definition esc : string := String (ascii_of_nat 27) EmptyString.

(** ["\n".join(lines)] *)
Fixpoint join_lines (ls : list string) : string :=
  match ls with
  | [] => EmptyString
  | [l] => l
  | l :: rest => l ++ nl ++ join_lines rest
  end.

End PyString.
Import PyString.

(* ===================================================================== *)
(** * 2. Python scalars, truth values and the [%] operator                *)
(* ===================================================================== *)

Inductive scalar : Type :=
| PyStr (s : string)
| PyInt (z : Z)
| PyBool (b : bool).

Definition str_of_Z (z : Z) : string := NilZero.string_of_int (Z.to_int z).

(** [str(x)] *)
Definition py_str (x : scalar) : string :=
  match x with
  | PyStr s => s
  | PyInt z => str_of_Z z
  | PyBool true => "True"
  | PyBool false => "False"
  end.

(** The exceptions the module can raise or let through. *)
Inductive exn : Type :=
| Exception (msg : string)
| NotImplementedError (msg : string)
| ErrorReturnCode (cmd : string)
| KeyError (key : string)
| TypeError (msg : string)
| AttributeError (msg : string)
| OSError (path : string)
| ParsingError (msg : string).

(** [fmt % args]: the conversions the module uses are [%s] and [%d]; [%%]
    is a literal percent sign.  An argument list that is too short or too
    long, a [%d] given a string, or an unknown conversion is a
    [TypeError] (a [ValueError] in Python for the last one; both abort). *)
Fixpoint percent (fmt : string) (args : list scalar) : option string :=
  match fmt with
  | EmptyString => match args with [] => Some EmptyString | _ => None end
  | String "%" (String "s" rest) =>
      match args with
      | a :: args' => option_map (append (py_str a)) (percent rest args')
      | [] => None
      end
  | String "%" (String "d" rest) =>
      match args with
      | PyInt z :: args' => option_map (append (str_of_Z z)) (percent rest args')
      | PyBool b :: args' =>
          option_map (append (if b then "1" else "0")) (percent rest args')
      | _ => None
      end
  | String "%" (String "%" rest) => option_map (String "%") (percent rest args)
  | String "%" _ => None
  | String c rest => option_map (String c) (percent rest args)
  end.

(* ===================================================================== *)
(** * 3. The logic-template renderer                                      *)
(* ===================================================================== *)

(** Modelled from the spec: [pystache.render] is a library function and is
    not part of the module's source.  The model follows the spec (4.5):
    scalar substitution, list iteration, conditional sections keyed by a
    boolean or list flag, permissive substitution of missing keys, a
    malformed template is a fatal error; and the Mustache rules the
    library implements for them: [{{key}}] is HTML-escaped, [{{&key}}] is
    not, a section or comment tag alone on its line takes the whole line
    with it, keys are looked up through the context stack.  Partials,
    delimiter changes, triple braces, dotted names and the implicit
    iterator are outside the fragment: the three templates use none. *)
Module Mustache.

(** What a template can see of a Python object: its attributes and what
    [repr] prints for it. *)
Record pyobj : Type := { obj_attrs : list (string * scalar); obj_repr : string }.

Inductive value : Type :=
| Scalar (x : scalar)
| Items (l : list pyobj).

Definition context : Type := list (string * value).

Fixpoint lookup {V : Type} (key : string) (kvs : list (string * V)) : option V :=
  match kvs with
  | [] => None
  | (k, v) :: rest => if String.eqb k key then Some v else lookup key rest
  end.

(** ** Parsing *)

Inductive tag_kind : Type := KVar | KRaw | KSection | KInverted | KClose | KComment.

Inductive token : Type :=
| TText (s : string)
| TTag (k : tag_kind) (key : string).

#[warnings="-register-all"]
Inductive node : Type :=
| NText (s : string)
| NVar (escaped : bool) (key : string)
| NSection (inverted : bool) (key : string) (body : list node).

Definition is_blank (c : ascii) : bool :=
  Ascii.eqb c " " || Ascii.eqb c (ascii_of_nat 9).

Definition is_eol (c : ascii) : bool :=
  Ascii.eqb c (ascii_of_nat 10) || Ascii.eqb c (ascii_of_nat 13).

(** The tag type is the first character after the opening braces and
    optional blanks; the key is what is left, trimmed.  [None]: a tag
    type outside the fragment. *)
Definition classify (content : string) : option (tag_kind * string) :=
  match lstrip content with
  | String "#" k => Some (KSection, strip k)
  | String "^" k => Some (KInverted, strip k)
  | String "/" k => Some (KClose, strip k)
  | String "!" k => Some (KComment, strip k)
  | String "&" k => Some (KRaw, strip k)
  | String ">" _ => None
  | String "=" _ => None
  | String "{" _ => None
  | k => Some (KVar, strip k)
  end.

Definition interpolating (k : tag_kind) : bool :=
  match k with KVar | KRaw => true | _ => false end.

Definition text_token (s : string) (rest : list token) : list token :=
  match s with EmptyString => rest | _ => TText s :: rest end.

(** Where the scanner is: in literal text ([lit] read so far, then the
    run [ws] of blanks that may turn out to lead a standalone tag; [bol]
    says the character before that run ends a line or is the start of
    the template), or inside a tag whose content so far is [content]. *)
Inductive scan_state : Type :=
| Outside (lit ws : string) (bol : bool)
| Inside (lit ws : string) (bol : bool) (content : string).

Definition snoc (s : string) (c : ascii) : string := s ++ String c EmptyString.

Fixpoint scan (tpl : string) (st : scan_state) {struct tpl} : option (list token) :=
  match st with
  | Outside lit ws bol =>
      match tpl with
      | EmptyString => Some (text_token (lit ++ ws) [])
      | String "{" (String "{" rest) => scan rest (Inside lit ws bol EmptyString)
      | String c rest =>
          if is_blank c then scan rest (Outside lit (snoc ws c) bol)
          else scan rest (Outside (snoc (lit ++ ws) c) EmptyString (is_eol c))
      end
  | Inside lit ws bol content =>
      match tpl with
      | EmptyString => Some (text_token (lit ++ ws ++ "{{" ++ content) [])
      | String "}" (String "}" rest) =>
          match classify content with
          | None => None
          | Some (k, key) =>
              let eol := match rest with
                         | EmptyString => true
                         | String c _ => is_eol c
                         end in
              if bol && eol && negb (interpolating k) then
                option_map (fun ts => text_token lit (TTag k key :: ts))
                  match rest with
                  | String "013" (String "010" rest') =>
                      scan rest' (Outside EmptyString EmptyString true)
                  | String "013" rest' =>
                      scan rest' (Outside EmptyString EmptyString true)
                  | String "010" rest' =>
                      scan rest' (Outside EmptyString EmptyString true)
                  | _ => scan rest (Outside EmptyString EmptyString true)
                  end
              else
                option_map (fun ts => text_token (lit ++ ws) (TTag k key :: ts))
                  (scan rest (Outside EmptyString EmptyString false))
          end
      | String c rest => scan rest (Inside lit ws bol (snoc content c))
      end
  end.

Definition tokenize (tpl : string) : option (list token) :=
  scan tpl (Outside EmptyString EmptyString true).

(** Sections nest: [cur] holds the nodes of the innermost open section in
    reverse, [stack] the enclosing ones.  An end tag that does not name
    the innermost open section, or a section left open, is malformed. *)
Fixpoint build (toks : list token) (cur : list node)
         (stack : list (bool * string * list node)) : option (list node) :=
  match toks with
  | [] => match stack with [] => Some (rev cur) | _ => None end
  | TText s :: rest => build rest (NText s :: cur) stack
  | TTag KVar key :: rest => build rest (NVar true key :: cur) stack
  | TTag KRaw key :: rest => build rest (NVar false key :: cur) stack
  | TTag KComment _ :: rest => build rest cur stack
  | TTag KSection key :: rest => build rest [] ((false, key, cur) :: stack)
  | TTag KInverted key :: rest => build rest [] ((true, key, cur) :: stack)
  | TTag KClose key :: rest =>
      match stack with
      | (inv, key', outer) :: stack' =>
          if String.eqb key key'
          then build rest (NSection inv key (rev cur) :: outer) stack'
          else None
      | [] => None
      end
  end.

Definition parse (tpl : string) : option (list node) :=
  match tokenize tpl with
  | Some toks => build toks [] []
  | None => None
  end.

(** ** Rendering *)

(** [html.escape(s, quote=True)] *)
Fixpoint escape (s : string) : string :=
  match s with
  | EmptyString => EmptyString
  | String "&" r => "&amp;" ++ escape r
  | String "<" r => "&lt;" ++ escape r
  | String ">" r => "&gt;" ++ escape r
  | String "034" r => "&quot;" ++ escape r
  | String "'" r => "&#x27;" ++ escape r
  | String c r => String c (escape r)
  end.

Fixpoint join (sep : string) (l : list string) : string :=
  match l with
  | [] => EmptyString
  | [x] => x
  | x :: rest => x ++ sep ++ join sep rest
  end.

(** [str(v)]; a list prints the [repr] of its elements. *)
Definition to_str (v : value) : string :=
  match v with
  | Scalar x => py_str x
  | Items l => "[" ++ join ", " (map obj_repr l) ++ "]"
  end.

Definition truthy_scalar (x : scalar) : bool :=
  match x with
  | PyStr s => negb (String.eqb s EmptyString)
  | PyInt z => negb (Z.eqb z 0)
  | PyBool b => b
  end.

Definition truthy (v : value) : bool :=
  match v with
  | Scalar x => truthy_scalar x
  | Items l => match l with [] => false | _ => true end
  end.

(** A frame of the context stack: the top-level dictionary, an object
    pushed by a list iteration, or a scalar pushed by a truthy flag
    (which has no keys of its own). *)
Definition frame : Type := list (string * value).

Definition frame_of_obj (o : pyobj) : frame :=
  map (fun kv => (fst kv, Scalar (snd kv))) (obj_attrs o).

(** The innermost frame that has the key wins. *)
Fixpoint resolve (key : string) (stack : list frame) : option value :=
  match stack with
  | [] => None
  | f :: rest =>
      match lookup key f with
      | Some v => Some v
      | None => resolve key rest
      end
  end.

(** What a section iterates over: nothing for a missing or falsy value,
    the elements of a list, the value itself otherwise. *)
Definition section_frames (v : option value) : list frame :=
  match v with
  | None => []
  | Some (Items l) => map frame_of_obj l
  | Some (Scalar x) => if truthy_scalar x then [[]] else []
  end.

Fixpoint render_node (stack : list frame) (n : node) {struct n} : string :=
  match n with
  | NText s => s
  | NVar escaped key =>
      let s := match resolve key stack with
               | Some v => to_str v
               | None => EmptyString
               end in
      if escaped then escape s else s
  | NSection inverted key body =>
      let v := resolve key stack in
      let body_in (st : list frame) : string :=
        (fix go (ns : list node) : string :=
           match ns with
           | [] => EmptyString
           | n' :: ns' => render_node st n' ++ go ns'
           end) body in
      if inverted then
        match section_frames v with
        | [] => body_in stack
        | _ => EmptyString
        end
      else
        (fix each (fs : list frame) : string :=
           match fs with
           | [] => EmptyString
           | f :: fs' => body_in (f :: stack) ++ each fs'
           end) (section_frames v)
  end.

Fixpoint render_nodes (stack : list frame) (ns : list node) : string :=
  match ns with
  | [] => EmptyString
  | n :: ns' => render_node stack n ++ render_nodes stack ns'
  end.

(** [pystache.render(template, context)] *)
Definition render (template : string) (ctx : context) : exn + string :=
  match parse template with
  | Some ns => inr (render_nodes [ctx] ns)
  | None => inl (ParsingError template)
  end.

End Mustache.

(* ===================================================================== *)
(** * 4. The module                                                       *)
(* ===================================================================== *)

(** ** 4.1 What the module talks to

    Everything outside the interpreter is an oracle of the host: the
    environment, the file system, the external commands, the tracker.  An
    oracle answers the same question the same way during one run. *)

Record Milestone : Type := { m_title : string; m_number : Z }.

Record Issue : Type := {
  i_number : Z;
  i_html_url : string;
  i_title : string;
  i_closed_at : Z;           (* a point in time; datetimes compare like integers *)
  i_repr : string
}.

Inductive issue_state : Type := st_open | st_closed.

(** What [invoke.run] hands back. *)
Record Result : Type := { stdout : string; return_code : Z }.

Record Host : Type := {
  sh_importable : bool;                  (* [import sh] succeeds *)
  gpg_on_path : bool;                    (* [sh.Command('gpg')] finds the tool *)
  gpg_d : string -> option string;       (* output of [gpg -d path]; [None]: non-zero exit *)
  environ : list (string * string);
  expanduser : string -> string;
  fabfile_dir : string;                  (* [os.path.dirname(__file__)] *)
  initial_cwd : string;
  run_result : string -> string -> Result;   (* working directory, command *)
  isdir : string -> bool;
  file_text : string -> option string;   (* what reading a file yields *)
  writable : string -> bool;             (* [open(path, "w")] succeeds *)
  getsize : string -> option Z;
  plist_dict : string -> exn + list (option string);
                                         (* texts of the children of the
                                            descriptor's [dict] element *)
  now : string;                          (* the formatted current time *)
  mkstemp : list string -> string;       (* name chosen for a new temporary
                                            file, given those that exist *)
  iter_milestones : list Milestone;
  iter_issues : Z -> issue_state -> list Issue
}.

(** What the run leaves behind. *)
Inductive event : Type :=
| Printed (line : string)                (* [print] / [puts] *)
| Echoed (text : string).                (* output of a command run unhidden *)

Record World : Type := {
  out : list event;                      (* oldest first *)
  files : list (string * string);        (* files written, newest first *)
  cwd : string;
  tempfiles : list (string * string);    (* [DecryptedFiles.tempfiles]: name, content *)
  gpg_calls : list string;               (* paths given to [gpg -d], oldest first *)
  commands : list string                 (* commands given to [run], oldest first *)
}.

Definition initial_world (h : Host) : World :=
  {| out := []; files := []; cwd := initial_cwd h; tempfiles := [];
     gpg_calls := []; commands := [] |}.

(** ** 4.2 Exceptions and effects *)

Definition M (A : Type) : Type := World -> (exn + A) * World.

Definition ret {A} (x : A) : M A := fun w => (inr x, w).
Definition raise {A} (e : exn) : M A := fun w => (inl e, w).
Definition bind {A B} (m : M A) (k : A -> M B) : M B :=
  fun w => match m w with
           | (inr x, w') => k x w'
           | (inl e, w') => (inl e, w')
           end.

Declare Scope py_scope.
Delimit Scope py_scope with py.
Notation "x <- m ;; k" := (bind m (fun x => k))
  (at level 61, m at next level, right associativity) : py_scope.
Notation "m ;; k" := (bind m (fun _ => k))
  (at level 61, right associativity) : py_scope.
Open Scope py_scope.

Definition lift {A} (r : exn + A) : M A := fun w => (r, w).

Definition or_raise {A} (e : exn) (o : option A) : M A :=
  match o with Some x => ret x | None => raise e end.

(** [fmt % args] as a statement *)
Definition fmt (f : string) (args : list scalar) : M string :=
  or_raise (TypeError f) (percent f args).

(** [with cm: body] for a context manager that does not swallow
    exceptions: [exit] runs whether [body] raised or not. *)
Definition with_ {A} (enter : M unit) (exit : M unit) (body : M A) : M A :=
  fun w => match enter w with
           | (inl e, w1) => (inl e, w1)
           | (inr _, w1) =>
               match body w1 with
               | (r, w2) =>
                   match exit w2 with
                   | (inl e, w3) => (inl e, w3)
                   | (inr _, w3) => (r, w3)
                   end
               end
           end.

Fixpoint for_each {A} (l : list A) (body : A -> M unit) : M unit :=
  match l with
  | [] => ret tt
  | x :: rest => body x ;; for_each rest body
  end.

Definition print (line : string) : M unit :=
  fun w => (inr tt,
            {| out := (out w ++ [Printed line])%list; files := files w; cwd := cwd w;
               tempfiles := tempfiles w; gpg_calls := gpg_calls w;
               commands := commands w |}).

Definition getcwd : M string := fun w => (inr (cwd w), w).

(** [os.chdir(path)] for an absolute [path], which is every path the
    module changes to: [proj_src_dir] is joined to [os.getcwd()] when the
    module loads, and [lcd] goes back to what [os.getcwd()] returned.  The
    working directory is kept under the name it was entered by; a relative
    path, which the interpreter would resolve against the current
    directory, is outside this definition. *)
Definition chdir (h : Host) (path : string) : M unit :=
  fun w => if isdir h path
           then (inr tt,
                 {| out := out w; files := files w; cwd := path;
                    tempfiles := tempfiles w; gpg_calls := gpg_calls w;
                    commands := commands w |})
           else (inl (OSError path), w).

(** [with open(path, "w") as f: f.write(text ())]: the file is opened, and
    emptied, before the text is computed. *)
Definition write_file (h : Host) (path : string) (text : M string) : M unit :=
  fun w => if writable h path
           then
             let opened :=
               {| out := out w; files := (path, EmptyString) :: files w; cwd := cwd w;
                  tempfiles := tempfiles w; gpg_calls := gpg_calls w;
                  commands := commands w |} in
             match text opened with
             | (inl e, w') => (inl e, w')
             | (inr t, w') =>
                 (inr tt,
                  {| out := out w'; files := (path, t) :: files w'; cwd := cwd w';
                     tempfiles := tempfiles w'; gpg_calls := gpg_calls w';
                     commands := commands w' |})
             end
           else (inl (OSError path), w).

(** The content a path has after the run, if the module wrote it. *)
Definition written (path : string) (w : World) : option string :=
  Mustache.lookup path (files w).

(** [os.path.join(a, b)] *)
Definition path_join2 (a b : string) : string :=
  if startswith b "/" then b
  else if String.eqb a EmptyString || endswith a "/" then a ++ b
  else a ++ "/" ++ b.

Definition path_join (a : string) (ps : list string) : string :=
  fold_left path_join2 ps a.

(** [os.environ[key]] and [os.environ.get(key, default)] *)
Definition environ_item (h : Host) (key : string) : M string :=
  or_raise (KeyError key) (Mustache.lookup key (environ h)).

Definition environ_get (h : Host) (key default : string) : string :=
  match Mustache.lookup key (environ h) with
  | Some v => v
  | None => default
  end.

(** ** 4.3 Configuration *)

(** What the name [gpg] is bound to once the [try] at the top of the module
    has run: the tool, or the stand-in that raises when called. *)
Inductive gpg_binding : Type := gpg_command | gpg_stub.

Definition import_gpg (h : Host) : gpg_binding :=
  if sh_importable h && gpg_on_path h then gpg_command else gpg_stub.

Definition gpg_unavailable_msg : string :=
  "the sh module is not installed or gpg command not found; unable to use gpg-encrypted keys".

(** [gpg('-d', path)] *)
Definition gpg (h : Host) (path : string) : M string :=
  match import_gpg h with
  | gpg_stub => raise (NotImplementedError gpg_unavailable_msg)
  | gpg_command =>
      fun w =>
        let w' := {| out := out w; files := files w; cwd := cwd w;
                     tempfiles := tempfiles w;
                     gpg_calls := (gpg_calls w ++ [path])%list;
                     commands := commands w |} in
        match gpg_d h path with
        | Some text => (inr text, w')
        | None => (inl (ErrorReturnCode ("gpg -d " ++ path)), w')
        end
  end.

(** A file object of [tempfile.NamedTemporaryFile()]: its place in
    [DecryptedFiles.tempfiles] and its name. *)
Record tmpfile : Type := { fh_index : nat; fh_name : string }.

(** [fh = tempfile.NamedTemporaryFile(); cls.tempfiles.append(fh)] *)
Definition new_tempfile (h : Host) : M tmpfile :=
  fun w =>
    let name := mkstemp h (map fst (tempfiles w)) in
    (inr {| fh_index := length (tempfiles w); fh_name := name |},
     {| out := out w; files := files w; cwd := cwd w;
        tempfiles := (tempfiles w ++ [(name, EmptyString)])%list;
        gpg_calls := gpg_calls w; commands := commands w |}).

Fixpoint append_at (n : nat) (data : string) (l : list (string * string))
  : list (string * string) :=
  match l, n with
  | [], _ => []
  | (name, text) :: rest, O => (name, text ++ data) :: rest
  | x :: rest, S n' => x :: append_at n' data rest
  end.

(** [fh.write(data); fh.flush()] *)
Definition fh_write (fh : tmpfile) (data : string) : M unit :=
  fun w => (inr tt,
            {| out := out w; files := files w; cwd := cwd w;
               tempfiles := append_at (fh_index fh) data (tempfiles w);
               gpg_calls := gpg_calls w; commands := commands w |}).

(** [DecryptedFiles.get_decrypted_key_path(path)] *)
Definition get_decrypted_key_path (h : Host) (path : string) : M string :=
  if negb (endswith path ".gpg") then ret path
  else
    fh <- new_tempfile h ;;
    result <- gpg h path ;;
    fh_write fh result ;;
    ret (fh_name fh).

(** ** 4.4 Templates *)

(** The text between the triple quotes, one line per element, then [.strip()]. *)
Definition release_notes_template_html : string :=
  strip (join_lines
      [EmptyString;
       "<!DOCTYPE HTML PUBLIC " ++ dq ++ "-//IETF//DTD HTML//EN" ++ dq ++ ">";
       "<html>";
       "    <body>";
       "        <h1>{{proj_name}} version {{proj_version}}</h1>";
       EmptyString;
       "        {{#has_issues}}";
       "        <h2>Issues closed</h2>";
       "        <ul>";
       "        {{#issues}}";
       "            <li><a href=" ++ dq ++ "{{html_url}}" ++ dq ++ "><b>#{{number}}</b></a> - {{title}}</li>";
       "        {{/issues}}";
       "        </ul>";
       "        {{/has_issues}}";
       EmptyString;
       "        More information about this release can be found on <a href=" ++ dq ++ "{{milestone_url}}" ++ dq ++ ">github</a>.";
       "        <br/><br/>";
       "        If you find any bugs please report them on <a href=" ++ dq ++ "http://github.com/citadelgrad/ShiftIt/issues" ++ dq ++ ">github</a>.";
       "    </body>";
       "</html>";
       EmptyString]).

(** Release notes, Markdown. *)
Definition release_notes_template_md : string :=
  strip (join_lines
      [EmptyString;
       "{{#has_issues}}";
       "## Issues closed";
       "{{#issues}}";
       "- [#{{number}}]({{html_url}}) - {{title}}";
       "{{/issues}}";
       "{{/has_issues}}";
       EmptyString;
       "More information about this release can be found on [github]({{milestone_url}}).";
       EmptyString;
       "If you find any bugs please report them on [github](http://github.com/citadelgrad/ShiftIt/issues).";
       EmptyString]).

(** The update feed. *)
Definition appcast_template : string :=
  strip (join_lines
      [EmptyString;
       "<?xml version=" ++ dq ++ "1.0" ++ dq ++ " encoding=" ++ dq ++ "utf-8" ++ dq ++ "?>";
       "<rss version=" ++ dq ++ "2.0" ++ dq ++ " xmlns:sparkle=" ++ dq ++ "http://www.andymatuschak.org/xml-namespaces/sparkle" ++ dq ++ " xmlns:dc=" ++ dq ++ "http://purl.org/dc/elements/1.1/" ++ dq ++ ">";
       "   <channel>";
       "      <title>{{proj_name}} Changelog</title>";
       "      <link>{{proj_appcast_url}}</link>";
       "      <language>en</language>";
       "      <item>";
       "         <title>{{proj_name}} version {{proj_version}}</title>";
       "         <sparkle:releaseNotesLink>";
       "            {{proj_release_notes_url}}";
       "         </sparkle:releaseNotesLink>";
       "         <pubDate>{{date}}</pubDate>";
       "         <enclosure";
       "            url=" ++ dq ++ "{{download_url}}" ++ dq;
       "            sparkle:version=" ++ dq ++ "{{proj_version}}" ++ dq;
       "            length=" ++ dq ++ "{{download_size}}" ++ dq;
       "            type=" ++ dq ++ "application/octet-stream" ++ dq;
       "            sparkle:edSignature=" ++ dq ++ "{{download_signature}}" ++ dq ++ " />";
       "         <sparkle:minimumSystemVersion>14.6</sparkle:minimumSystemVersion>";
       "      </item>";
       "   </channel>";
       "</rss>";
       EmptyString]).

(** ** 4.5 Compatibility layer *)

(** [run(cmd, hide=hide, warn=True)]: the command runs in the current
    directory; with [warn=True] a non-zero exit status is reported in the
    result and nothing is raised; unless hidden, the output is echoed. *)
Definition run (h : Host) (cmd : string) (hide : bool) : M Result :=
  fun w =>
    let r := run_result h (cwd w) cmd in
    (inr r,
     {| out := if hide then out w else (out w ++ [Echoed (stdout r)])%list;
        files := files w; cwd := cwd w; tempfiles := tempfiles w;
        gpg_calls := gpg_calls w;
        commands := (commands w ++ [cmd])%list |}).

(** [local(cmd, capture)] returns the output when capturing, the result
    object otherwise. *)
Definition local (h : Host) (cmd : string) (capture : bool)
  : M (if capture then string else Result) :=
  result <- run h cmd capture ;;
  match capture return M (if capture then string else Result) with
  | true => ret (stdout result)
  | false => ret result
  end.

Definition puts (msg : string) : M unit := print msg.

Definition green (msg : string) : string := esc ++ "[92m" ++ msg ++ esc ++ "[0m".

(** [with lcd(path): body] *)
Definition lcd {A} (h : Host) (path : string) (body : M A) : M A :=
  old_path <- getcwd ;;
  with_ (chdir h path) (chdir h old_path) body.

(** [with settings(warn_only=True): body]: entering and leaving do nothing. *)
Definition settings {A} (warn_only : bool) (body : M A) : M A :=
  with_ (ret tt) (ret tt) body.

(** ** 4.6 Code *)

(** [_find(f, seq)]: first item of [seq] satisfying [f], [None] otherwise. *)
Fixpoint _find {A : Type} (f : A -> bool) (seq : list A) : option A :=
  match seq with
  | [] => None
  | item :: rest => if f item then Some item else _find f rest
  end.

Definition _get_bundle_version (h : Host) (info_plist : string) : M string :=
  cmd <- fmt "defaults read %s CFBundleVersion" [PyStr info_plist] ;;
  version <- local h cmd true ;;
  ret (strip version).

(** [_get_milestone()], as a function of the two things it reads: the
    module-level [proj_version] and what [shiftit.iter_milestones()]
    yields.  A milestone object is always truthy, so [not milestone]
    holds exactly when [_find] returned [None]. *)
Definition _get_milestone (proj_version : string) (milestones : list Milestone)
  : exn + Milestone :=
  match _find (fun m => startswith proj_version (m_title m)) milestones with
  | None =>
      inl (Exception
             (match percent "Unable to find milestone: %s" [PyStr proj_version] with
              | Some msg => msg
              | None => EmptyString
              end))
  | Some milestone => inr milestone
  end.

(** [title] is a string-prefix of [v]. *)
Definition is_prefix (title v : string) : Prop := exists rest, v = title ++ rest.

(** The fatal condition of milestone resolution. *)
Definition MilestoneNotFound (v : string) : exn :=
  Exception ("Unable to find milestone: " ++ v).

(** [l.sort(key=key)]: Python's sort is stable, and a stable sort has one
    possible result; insertion from the right computes it. *)
Fixpoint insert_by {A} (key : A -> Z) (x : A) (l : list A) : list A :=
  match l with
  | [] => [x]
  | y :: rest => if (key x <=? key y)%Z then x :: y :: rest
                 else y :: insert_by key x rest
  end.

Fixpoint sort_by {A} (key : A -> Z) (l : list A) : list A :=
  match l with
  | [] => []
  | x :: rest => insert_by key x (sort_by key rest)
  end.

(** Ascending by key. *)
Definition key_le {A} (key : A -> Z) (a b : A) : Prop := (key a <= key b)%Z.

(** The items with a given key, in the order they have in the list. *)
Definition with_key {A} (key : A -> Z) (t : Z) (l : list A) : list A :=
  filter (fun a => Z.eqb (key a) t) l.

(** What the renderer sees of an issue object; no template names an
    attribute other than these. *)
Definition issue_obj (i : Issue) : Mustache.pyobj :=
  {| Mustache.obj_attrs := [("number", PyInt (i_number i));
                            ("html_url", PyStr (i_html_url i));
                            ("title", PyStr (i_title i))];
     Mustache.obj_repr := i_repr i |}.

(** The first two statements of [_gen_release_notes] after the milestone
    is known. *)
Definition closed_issues_of (h : Host) (milestone : Milestone) : list Issue :=
  sort_by i_closed_at (iter_issues h (m_number milestone) st_closed).

(** The dictionary [release_notes]. *)
Definition release_notes_context (proj_name proj_version : string)
           (closed_issues : list Issue) (milestone_url : string) : Mustache.context :=
  [("has_issues", Mustache.Scalar (PyBool (0 <? length closed_issues)%nat));
   ("issues", Mustache.Items (map issue_obj closed_issues));
   ("proj_name", Mustache.Scalar (PyStr proj_name));
   ("proj_version", Mustache.Scalar (PyStr proj_version));
   ("milestone_url", Mustache.Scalar (PyStr milestone_url))].

(** ** 4.7 Project settings *)

(** The module-level names the tasks read. *)
Record Globals : Type := {
  SHIFTIT_GITHUB_USER : string;
  SHIFTIT_GITHUB_REPO : string;
  proj_name : string;
  proj_info_plist : string;
  proj_src_dir : string;
  proj_github_token_file : string;
  proj_sign_update_tool : string;
  proj_build_dir : string;
  proj_app_dir : string;
  proj_public_key : string;
  proj_version : string;
  proj_archive_name : string;
  proj_archive_path : string;
  proj_download_url : string;
  proj_release_notes_url : string;
  proj_release_notes_html_file : string;
  proj_appcast_file : string;
  proj_github_token : string
}.

Definition proj_archive_name_of (proj_name proj_version : string) : string :=
  proj_name ++ "-" ++ proj_version ++ ".zip".

Definition proj_download_url_of (proj_version proj_archive_name : string)
  : option string :=
  percent "https://github.com/citadelgrad/ShiftIt/releases/download/version-%s/%s"
          [PyStr proj_version; PyStr proj_archive_name].

(** The base the download URL hangs from. *)
Definition download_base : string :=
  "https://github.com/citadelgrad/ShiftIt/releases/download".

(** The argument of [get_decrypted_key_path] at the top of the module. *)
Definition configured_token_path (h : Host) : string :=
  environ_get h "SHIFTIT_GITHUB_TOKEN" (expanduser h "~/Keys/ShiftIt/github.token").

Definition _load_github_token (h : Host) (proj_github_token_file : string) : M string :=
  text <- or_raise (OSError proj_github_token_file) (file_text h proj_github_token_file) ;;
  ret (strip text).

(** The top-level statements of the module that bind its settings, in
    order: from the first look-up in the environment to the reading of the
    token (lines 45 to 57 and 221 to 235 of the source).  The two
    statements that follow, the log-in and the look-up of the repository
    (lines 241 and 242), belong to the tracker library and are not part
    of this definition: the tracker is the two oracles of the host, and a
    namespace handed to a task stands for a run in which they went
    through. *)
Definition load_module (h : Host) : M Globals :=
  user <- environ_item h "SHIFTIT_GITHUB_USER" ;;
  repo <- environ_item h "SHIFTIT_GITHUB_REPO" ;;
  let name := "ShiftIt" in
  let info_plist0 := "ShiftIt-Info.plist" in
  let src_dir0 := "ShiftIt" in
  token_file <- get_decrypted_key_path h (configured_token_path h) ;;
  let sign_update_tool :=
    environ_get h "SHIFTIT_SIGN_UPDATE"
      (path_join (fabfile_dir h) ["ShiftIt"; "bin"; "sign_update"]) in
  here <- getcwd ;;
  let src_dir := path_join here [src_dir0] in
  let build_dir := path_join here ["build"] in
  let app_dir := path_join src_dir ["build"; "Release"; name ++ ".app"] in
  let public_key := path_join src_dir ["dsa_pub.pem"] in
  let info_plist := path_join src_dir [info_plist0] in
  version <- _get_bundle_version h info_plist ;;
  let archive_name := proj_archive_name_of name version in
  let archive_path := path_join build_dir [archive_name] in
  download_url <- or_raise (TypeError "download url")
                    (proj_download_url_of version archive_name) ;;
  let release_notes_url :=
    "http://htmlpreview.github.com/?https://raw.github.com/citadelgrad/ShiftIt/master/release/release-notes-"
      ++ version ++ ".html" in
  let release_notes_html_file :=
    path_join here ["release"; "release-notes-" ++ version ++ ".html"] in
  let appcast_file := path_join here ["release"; "appcast.xml"] in
  token <- _load_github_token h token_file ;;
  ret {| SHIFTIT_GITHUB_USER := user;
         SHIFTIT_GITHUB_REPO := repo;
         proj_name := name;
         proj_info_plist := info_plist;
         proj_src_dir := src_dir;
         proj_github_token_file := token_file;
         proj_sign_update_tool := sign_update_tool;
         proj_build_dir := build_dir;
         proj_app_dir := app_dir;
         proj_public_key := public_key;
         proj_version := version;
         proj_archive_name := archive_name;
         proj_archive_path := archive_path;
         proj_download_url := download_url;
         proj_release_notes_url := release_notes_url;
         proj_release_notes_html_file := release_notes_html_file;
         proj_appcast_file := appcast_file;
         proj_github_token := token |}.

(** A value of the module namespace: a string, or something else (a
    module, a function, a class, a client object) with what [str] prints
    for it. *)
Inductive pyval : Type :=
| Str (s : string)
| Other (printed : string).

Definition str_of_pyval (v : pyval) : string :=
  match v with Str s => s | Other printed => printed end.

(** [globals().items()] once the module is loaded: a dictionary lists its
    keys in the order they were first bound. *)
Definition globals_items (h : Host) (g : Globals) : list (string * pyval) :=
  ([("__name__", Str "fabfile");
    ("__doc__", Other "None");
    ("__package__", Other "None");
    ("__loader__", Other "<SourceFileLoader>");
    ("__spec__", Other "<ModuleSpec>");
    ("__file__", Other "fabfile.py");
    ("__cached__", Other "fabfile.pyc");
    ("__builtins__", Other "<module 'builtins'>");
    ("os", Other "<module 'os'>");
    ("tempfile", Other "<module 'tempfile'>")]
   ++ (if sh_importable h then [("sh", Other "<module 'sh'>")] else [])
   ++
  [("gpg", Other (match import_gpg h with
                  | gpg_command => "<Command 'gpg'>"
                  | gpg_stub => "<function gpg>"
                  end));
   ("DecryptedFiles", Other "<class 'fabfile.DecryptedFiles'>");
   ("SHIFTIT_GITHUB_USER", Str (SHIFTIT_GITHUB_USER g));
   ("SHIFTIT_GITHUB_REPO", Str (SHIFTIT_GITHUB_REPO g));
   ("proj_name", Str (proj_name g));
   ("proj_info_plist", Str (proj_info_plist g));
   ("proj_src_dir", Str (proj_src_dir g));
   ("proj_github_token_file", Str (proj_github_token_file g));
   ("proj_sign_update_tool", Str (proj_sign_update_tool g));
   ("release_notes_template_html", Str release_notes_template_html);
   ("release_notes_template_md", Str release_notes_template_md);
   ("appcast_template", Str appcast_template);
   ("task", Other "<function task>");
   ("run", Other "<function run>");
   ("Context", Other "<class 'invoke.context.Context'>");
   ("local", Other "<function local>");
   ("puts", Other "<function puts>");
   ("green", Other "<function green>");
   ("lcd", Other "<class 'fabfile.lcd'>");
   ("settings", Other "<class 'fabfile.settings'>");
   ("execute", Other "<function execute>");
   ("ElementTree", Other "<module 'xml.etree.ElementTree'>");
   ("pystache", Other "<module 'pystache'>");
   ("github3", Other "<module 'github3'>");
   ("base64", Other "<module 'base64'>");
   ("datetime", Other "<module 'datetime'>");
   ("_find", Other "<function _find>");
   ("_get_bundle_version", Other "<function _get_bundle_version>");
   ("_get_milestone", Other "<function _get_milestone>");
   ("_gen_release_notes", Other "<function _gen_release_notes>");
   ("_load_github_token", Other "<function _load_github_token>");
   ("proj_build_dir", Str (proj_build_dir g));
   ("proj_app_dir", Str (proj_app_dir g));
   ("proj_public_key", Str (proj_public_key g));
   ("proj_version", Str (proj_version g));
   ("proj_archive_name", Str (proj_archive_name g));
   ("proj_archive_path", Str (proj_archive_path g));
   ("proj_download_url", Str (proj_download_url g));
   ("proj_release_notes_url", Str (proj_release_notes_url g));
   ("proj_release_notes_html_file", Str (proj_release_notes_html_file g));
   ("proj_appcast_file", Str (proj_appcast_file g));
   ("proj_github_token", Str (proj_github_token g));
   ("github", Other "<GitHub>");
   ("shiftit", Other "<Repository>");
   ("info", Other "<Task 'info'>");
   ("build", Other "<Task 'build'>");
   ("archive", Other "<Task 'archive'>");
   ("release_notes", Other "<Task 'release_notes'>");
   ("appcast", Other "<Task 'appcast'>");
   ("release", Other "<Task 'release'>")])%list.

(** ** 4.8 Tasks

    A task reads the module namespace [g] and talks to the host [h].
    [execute(task)] builds a fresh context and calls the task; no task
    uses its context, so [execute] is the call itself. *)

Definition execute {A} (task : M A) : M A := task.

Definition _gen_release_notes (h : Host) (g : Globals) (template : string)
  : M string :=
  milestone <- lift (_get_milestone (proj_version g) (iter_milestones h)) ;;
  let closed_issues := closed_issues_of h milestone in
  milestone_url <- fmt "https://github.com/citadelgrad/ShiftIt/issues?milestone=%d"
                       [PyInt (m_number milestone)] ;;
  let release_notes :=
    release_notes_context (proj_name g) (proj_version g) closed_issues milestone_url in
  lift (Mustache.render template release_notes).

Definition info (h : Host) (g : Globals) : M unit :=
  print "Build info:" ;;
  for_each (filter (fun kv => startswith (fst kv) "proj_") (globals_items h g))
    (fun kv =>
       line <- fmt (tab ++ "%s: %s")
                   [PyStr (drop (String.length "proj_") (fst kv));
                    PyStr (str_of_pyval (snd kv))] ;;
       print line).

(** The event of printing one line of [info]. *)
Definition info_line (kv : string * pyval) : event :=
  Printed (tab ++ drop (String.length "proj_") (fst kv) ++ ": " ++ str_of_pyval (snd kv)).

Definition build (h : Host) (g : Globals) : M unit :=
  lcd h (proj_src_dir g)
    (cmd <- fmt "xcodebuild -target %s -configuration Release" [PyStr (proj_name g)] ;;
     local h cmd false ;;
     ret tt).

Definition archive (h : Host) (g : Globals) : M unit :=
  execute (build h g) ;;
  cmd <- fmt "ditto -ck --keepParent %s %s"
             [PyStr (proj_app_dir g); PyStr (proj_archive_path g)] ;;
  local h cmd false ;;
  ret tt.

Definition release_notes (h : Host) (g : Globals) : M unit :=
  write_file h (proj_release_notes_html_file g)
    (_gen_release_notes h g release_notes_template_html) ;;
  puts ("Written " ++ proj_release_notes_html_file g).

(** The [zip] of one iterator with itself: consecutive pairs; an odd last
    element is dropped. *)
Fixpoint pairs {A} (l : list A) : list (A * A) :=
  match l with
  | a :: b :: rest => (a, b) :: pairs rest
  | _ => []
  end.

Definition text_is (s : string) (text : option string) : bool :=
  match text with
  | Some t => String.eqb t s
  | None => false
  end.

(** The dictionary [appcast]. *)
Definition appcast_context (g : Globals) (appcast_url date : string)
           (download_size : Z) (signature : string) : Mustache.context :=
  [("proj_name", Mustache.Scalar (PyStr (proj_name g)));
   ("proj_appcast_url", Mustache.Scalar (PyStr appcast_url));
   ("proj_version", Mustache.Scalar (PyStr (proj_version g)));
   ("proj_release_notes_url", Mustache.Scalar (PyStr (proj_release_notes_url g)));
   ("date", Mustache.Scalar (PyStr date));
   ("download_url", Mustache.Scalar (PyStr (proj_download_url g)));
   ("download_size", Mustache.Scalar (PyInt download_size));
   ("download_signature", Mustache.Scalar (PyStr signature))].

Definition appcast (h : Host) (g : Globals) : M unit :=
  milestone <- lift (_get_milestone (proj_version g) (iter_milestones h)) ;;
  (* verify that appcast URL matches *)
  elem <- lift (plist_dict h (proj_info_plist g)) ;;
  kv <- or_raise (TypeError "'NoneType' object is not subscriptable")
          (_find (fun kv => text_is "SUFeedURL" (fst kv)) (pairs elem)) ;;
  text <- or_raise (AttributeError "'NoneType' object has no attribute 'strip'")
            (snd kv) ;;
  let appcast_url := strip text in
  (* dependencies *)
  execute (archive h g) ;;
  execute (release_notes h g) ;;
  (* sign *)
  cmd <- fmt "%s %s" [PyStr (proj_sign_update_tool g); PyStr (proj_archive_path g)] ;;
  sign_result <- local h cmd true ;;
  let signature := strip sign_result in
  (* appcast properties *)
  download_size <- or_raise (OSError (proj_archive_path g))
                     (getsize h (proj_archive_path g)) ;;
  let appcast :=
    appcast_context g appcast_url (now h) download_size signature in
  write_file h (proj_appcast_file g) (lift (Mustache.render appcast_template appcast)).

Definition pending_changes_warning : string :=
  "Warning: there are pending changes in the repository. Run git status".

(** The first statement of [release]: the [with settings(warn_only=True)]
    block. *)
Definition release_pending_changes (h : Host) : M unit :=
  settings true
    (r <- local h "git diff-index --quiet HEAD --" false ;;
     if negb (Mustache.truthy_scalar (PyInt (return_code r)))
     then puts pending_changes_warning
     else ret tt).

Definition release (h : Host) (g : Globals) : M unit :=
  release_pending_changes h ;;
  milestone <- lift (_get_milestone (proj_version g) (iter_milestones h)) ;;
  let open_issues := iter_issues h (m_number milestone) st_open in
  (if (0 <? length open_issues)%nat then
     puts "Warning: there are still open issues" ;;
     for_each open_issues
       (fun i =>
          line <- fmt (tab ++ " * #%s: %s") [PyInt (i_number i); PyStr (i_title i)] ;;
          print line)
   else ret tt) ;;
  execute (appcast h g) ;;
  puts nl ;;
  puts (repeat "=" 100) ;;
  puts (green "1. Commit appcast and release notes") ;;
  msg <- fmt ("message: " ++ dq ++ "Added appcast and release notes for the ShiftIt %s release" ++ dq)
             [PyStr (proj_version g)] ;;
  puts msg ;;
  puts (green "2. Finnish the git flow") ;;
  puts (green "3. Close milestone at: https://github.com/citadelgrad/ShiftIt/milestones") ;;
  puts (green "4. Release at: https://github.com/citadelgrad/ShiftIt/releases and drafts a new release with:") ;;
  puts (repeat "-" 100) ;;
  puts ("tag: version-" ++ proj_version g) ;;
  puts ("title: " ++ proj_version g) ;;
  puts "description:" ;;
  notes <- _gen_release_notes h g release_notes_template_md ;;
  puts notes ;;
  puts (repeat "-" 100).

(** ** 4.10 The templates parsed, and the documents expected of them *)

Definition release_notes_html_nodes : list Mustache.node :=
  Eval vm_compute in
    match Mustache.parse release_notes_template_html with Some ns => ns | None => [] end.

Definition release_notes_md_nodes : list Mustache.node :=
  Eval vm_compute in
    match Mustache.parse release_notes_template_md with Some ns => ns | None => [] end.

Definition appcast_nodes : list Mustache.node :=
  Eval vm_compute in
    match Mustache.parse appcast_template with Some ns => ns | None => [] end.

(** The Markdown notes with the section of closed issues left out. *)
Definition notes_md_without_issues (url : string) : string :=
  join_lines
    [EmptyString;
     "More information about this release can be found on [github](" ++ Mustache.escape url ++ ").";
     EmptyString;
     "If you find any bugs please report them on [github](http://github.com/citadelgrad/ShiftIt/issues)."].

(** The HTML notes with the section of closed issues left out. *)
Definition notes_html_without_issues (name version url : string) : string :=
  join_lines
    ["<!DOCTYPE HTML PUBLIC " ++ dq ++ "-//IETF//DTD HTML//EN" ++ dq ++ ">";
     "<html>";
     "    <body>";
     "        <h1>" ++ Mustache.escape name ++ " version " ++ Mustache.escape version ++ "</h1>";
     EmptyString;
     EmptyString;
     "        More information about this release can be found on <a href=" ++ dq ++ Mustache.escape url ++ dq ++ ">github</a>.";
     "        <br/><br/>";
     "        If you find any bugs please report them on <a href=" ++ dq ++ "http://github.com/citadelgrad/ShiftIt/issues" ++ dq ++ ">github</a>.";
     "    </body>";
     "</html>"].

(** The update feed: the template with every tag replaced by the escaped
    value. *)
Definition appcast_xml (g : Globals) (appcast_url date : string)
           (download_size : Z) (signature : string) : string :=
  join_lines
    ["<?xml version=" ++ dq ++ "1.0" ++ dq ++ " encoding=" ++ dq ++ "utf-8" ++ dq ++ "?>";
     "<rss version=" ++ dq ++ "2.0" ++ dq ++ " xmlns:sparkle=" ++ dq ++ "http://www.andymatuschak.org/xml-namespaces/sparkle" ++ dq ++ " xmlns:dc=" ++ dq ++ "http://purl.org/dc/elements/1.1/" ++ dq ++ ">";
     "   <channel>";
     "      <title>" ++ Mustache.escape (proj_name g) ++ " Changelog</title>";
     "      <link>" ++ Mustache.escape appcast_url ++ "</link>";
     "      <language>en</language>";
     "      <item>";
     "         <title>" ++ Mustache.escape (proj_name g) ++ " version " ++ Mustache.escape (proj_version g) ++ "</title>";
     "         <sparkle:releaseNotesLink>";
     "            " ++ Mustache.escape (proj_release_notes_url g);
     "         </sparkle:releaseNotesLink>";
     "         <pubDate>" ++ Mustache.escape date ++ "</pubDate>";
     "         <enclosure";
     "            url=" ++ dq ++ Mustache.escape (proj_download_url g) ++ dq;
     "            sparkle:version=" ++ dq ++ Mustache.escape (proj_version g) ++ dq;
     "            length=" ++ dq ++ Mustache.escape (str_of_Z download_size) ++ dq;
     "            type=" ++ dq ++ "application/octet-stream" ++ dq;
     "            sparkle:edSignature=" ++ dq ++ Mustache.escape signature ++ dq ++ " />";
     "         <sparkle:minimumSystemVersion>14.6</sparkle:minimumSystemVersion>";
     "      </item>";
     "   </channel>";
     "</rss>"].

(** The milestone URL of the release notes. *)
Definition milestone_url_of (milestone : Milestone) : string :=
  "https://github.com/citadelgrad/ShiftIt/issues?milestone=" ++ str_of_Z (m_number milestone).

(** The command line that signs the archive. *)
Definition sign_command (g : Globals) : string :=
  proj_sign_update_tool g ++ " " ++ proj_archive_path g.

(** ** 4.11 A host to run the module on

    The scenario of the spec: version 2.1.3, milestones 2.0 and 2.1, two
    closed issues fetched newest first.  The variants change one oracle. *)

Definition demo_run_result (git_status : Z) (sign_output : string) (sign_status : Z)
           (dir cmd : string) : Result :=
  if startswith cmd "defaults read" then
    {| stdout := "2.1.3" ++ nl; return_code := 0 |}
  else if startswith cmd "git diff-index" then
    {| stdout := EmptyString; return_code := git_status |}
  else if contains cmd "sign_update" then
    {| stdout := sign_output; return_code := sign_status |}
  else {| stdout := EmptyString; return_code := 0 |}.

Definition demo_issues (number : Z) (st : issue_state) : list Issue :=
  match st with
  | st_closed =>
      if Z.eqb number 2 then
        [ {| i_number := 12; i_html_url := "https://github.com/citadelgrad/ShiftIt/issues/12";
             i_title := "Improve speed"; i_closed_at := 200; i_repr := "<Issue #12>" |};
          {| i_number := 10; i_html_url := "https://github.com/citadelgrad/ShiftIt/issues/10";
             i_title := "Fix crash"; i_closed_at := 100; i_repr := "<Issue #10>" |} ]
      else []
  | st_open => []
  end.

Definition demo_host_with (gpg_present : bool) (token_path : string)
           (git_status : Z) (sign_output : string) (sign_status : Z) : Host :=
  {| sh_importable := true;
     gpg_on_path := gpg_present;
     gpg_d := fun _ => Some ("0123456789abcdef" ++ nl);
     environ := [("SHIFTIT_GITHUB_USER", "citadelgrad");
                 ("SHIFTIT_GITHUB_REPO", "ShiftIt");
                 ("SHIFTIT_GITHUB_TOKEN", token_path)];
     expanduser := fun p => "/Users/dev" ++ drop 1 p;
     fabfile_dir := "/Users/dev/ShiftIt";
     initial_cwd := "/Users/dev/ShiftIt";
     run_result := demo_run_result git_status sign_output sign_status;
     isdir := fun _ => true;
     file_text := fun _ => Some ("0123456789abcdef" ++ nl);
     writable := fun _ => true;
     getsize := fun _ => Some 2048%Z;
     plist_dict := fun _ => inr [Some "CFBundleVersion"; Some "2.1.3";
                                 Some "SUFeedURL";
                                 Some "https://raw.github.com/citadelgrad/ShiftIt/master/release/appcast.xml"];
     now := "Wed, 04 Nov 2026 10:00:00 ";
     mkstemp := fun live => "/tmp/tmp" ++ repeat "x" (length live);
     iter_milestones := [ {| m_title := "2.0"; m_number := 1 |};
                          {| m_title := "2.1"; m_number := 2 |} ];
     iter_issues := demo_issues |}.

(** Everything in order: a clean tree, a signature. *)
Definition demo_host : Host :=
  demo_host_with true "/Users/dev/Keys/github.token" 0 ("MEUCIQDsignature==" ++ nl) 0.

(** Uncommitted changes in the working tree: the check exits with 1. *)
Definition dirty_host : Host :=
  demo_host_with true "/Users/dev/Keys/github.token" 1 ("MEUCIQDsignature==" ++ nl) 0.

(** The signing tool fails and prints nothing but a line end. *)
Definition unsigned_host : Host :=
  demo_host_with true "/Users/dev/Keys/github.token" 0 nl 1.

(** The signing tool exits with zero and prints nothing but a line end. *)
Definition blank_signature_host : Host :=
  demo_host_with true "/Users/dev/Keys/github.token" 0 nl 0.

(** An encrypted token, [gpg] installed. *)
Definition gpg_host : Host :=
  demo_host_with true "/Users/dev/Keys/github.token.gpg" 0 ("MEUCIQDsignature==" ++ nl) 0.

(** A plain token, no [gpg] on the machine. *)
Definition no_gpg_host : Host :=
  demo_host_with false "/Users/dev/Keys/github.token" 0 ("MEUCIQDsignature==" ++ nl) 0.

(** The same machine without closed issues. *)
Definition quiet_host : Host :=
  {| sh_importable := true; gpg_on_path := true;
     gpg_d := gpg_d demo_host; environ := environ demo_host;
     expanduser := expanduser demo_host; fabfile_dir := fabfile_dir demo_host;
     initial_cwd := initial_cwd demo_host; run_result := run_result demo_host;
     isdir := isdir demo_host; file_text := file_text demo_host;
     writable := writable demo_host; getsize := getsize demo_host;
     plist_dict := plist_dict demo_host; now := now demo_host;
     mkstemp := mkstemp demo_host; iter_milestones := iter_milestones demo_host;
     iter_issues := fun _ _ => [] |}.

(** The module namespace on these hosts (all but [gpg_host] agree on it). *)
Definition demo_globals : Globals :=
  {| SHIFTIT_GITHUB_USER := "citadelgrad";
     SHIFTIT_GITHUB_REPO := "ShiftIt";
     proj_name := "ShiftIt";
     proj_info_plist := "/Users/dev/ShiftIt/ShiftIt/ShiftIt-Info.plist";
     proj_src_dir := "/Users/dev/ShiftIt/ShiftIt";
     proj_github_token_file := "/Users/dev/Keys/github.token";
     proj_sign_update_tool := "/Users/dev/ShiftIt/ShiftIt/bin/sign_update";
     proj_build_dir := "/Users/dev/ShiftIt/build";
     proj_app_dir := "/Users/dev/ShiftIt/ShiftIt/build/Release/ShiftIt.app";
     proj_public_key := "/Users/dev/ShiftIt/ShiftIt/dsa_pub.pem";
     proj_version := "2.1.3";
     proj_archive_name := "ShiftIt-2.1.3.zip";
     proj_archive_path := "/Users/dev/ShiftIt/build/ShiftIt-2.1.3.zip";
     proj_download_url :=
       "https://github.com/citadelgrad/ShiftIt/releases/download/version-2.1.3/ShiftIt-2.1.3.zip";
     proj_release_notes_url :=
       "http://htmlpreview.github.com/?https://raw.github.com/citadelgrad/ShiftIt/master/release/release-notes-2.1.3.html";
     proj_release_notes_html_file := "/Users/dev/ShiftIt/release/release-notes-2.1.3.html";
     proj_appcast_file := "/Users/dev/ShiftIt/release/appcast.xml";
     proj_github_token := "0123456789abcdef" |}.

(** ** 4.12 Vocabulary of the further properties *)

(** The command lines of the build and archive stages. *)
Definition build_command (g : Globals) : string :=
  "xcodebuild -target " ++ proj_name g ++ " -configuration Release".

Definition ditto_command (g : Globals) : string :=
  "ditto -ck --keepParent " ++ proj_app_dir g ++ " " ++ proj_archive_path g.

(** The world with another working directory. *)
Definition in_directory (path : string) (w : World) : World :=
  {| out := out w; files := files w; cwd := path; tempfiles := tempfiles w;
     gpg_calls := gpg_calls w; commands := commands w |}.

(** The line [release] prints for an open issue. *)
Definition open_issue_line (i : Issue) : event :=
  Printed (tab ++ " * #" ++ str_of_Z (i_number i) ++ ": " ++ i_title i).

(** What [release] prints about open issues. *)
Definition open_issues_report (open_issues : list Issue) : list event :=
  match open_issues with
  | [] => []
  | _ => Printed "Warning: there are still open issues" :: map open_issue_line open_issues
  end.

(** What [release] prints once the feed is written. *)
Definition checklist (g : Globals) (notes : string) : list event :=
  [Printed nl;
   Printed (repeat "=" 100);
   Printed (green "1. Commit appcast and release notes");
   Printed ("message: " ++ dq ++ "Added appcast and release notes for the ShiftIt "
              ++ proj_version g ++ " release" ++ dq);
   Printed (green "2. Finnish the git flow");
   Printed (green "3. Close milestone at: https://github.com/citadelgrad/ShiftIt/milestones");
   Printed (green "4. Release at: https://github.com/citadelgrad/ShiftIt/releases and drafts a new release with:");
   Printed (repeat "-" 100);
   Printed ("tag: version-" ++ proj_version g);
   Printed ("title: " ++ proj_version g);
   Printed "description:";
   Printed notes;
   Printed (repeat "-" 100)].

(** The texts of the items, one after the other. *)
Fixpoint concat_map {A} (f : A -> string) (l : list A) : string :=
  match l with
  | [] => EmptyString
  | x :: rest => f x ++ concat_map f rest
  end.

(** The line of a closed issue in the Markdown notes and in the HTML notes. *)
Definition md_issue_line (i : Issue) : string :=
  "- [#" ++ Mustache.escape (str_of_Z (i_number i)) ++ "]("
    ++ Mustache.escape (i_html_url i) ++ ") - " ++ Mustache.escape (i_title i) ++ nl.

Definition html_issue_line (i : Issue) : string :=
  "            <li><a href=" ++ dq ++ Mustache.escape (i_html_url i) ++ dq ++ "><b>#"
    ++ Mustache.escape (str_of_Z (i_number i)) ++ "</b></a> - "
    ++ Mustache.escape (i_title i) ++ "</li>" ++ nl.

(** The Markdown notes with their section of closed issues. *)
Definition notes_md_with_issues (closed_issues : list Issue) (url : string) : string :=
  "## Issues closed" ++ nl ++ concat_map md_issue_line closed_issues
    ++ notes_md_without_issues url.

(** The HTML notes with their section of closed issues. *)
Definition notes_html_with_issues (name version : string) (closed_issues : list Issue)
           (url : string) : string :=
  join_lines
    ["<!DOCTYPE HTML PUBLIC " ++ dq ++ "-//IETF//DTD HTML//EN" ++ dq ++ ">";
     "<html>";
     "    <body>";
     "        <h1>" ++ Mustache.escape name ++ " version " ++ Mustache.escape version ++ "</h1>";
     EmptyString;
     "        <h2>Issues closed</h2>";
     "        <ul>";
     concat_map html_issue_line closed_issues ++ "        </ul>";
     EmptyString;
     "        More information about this release can be found on <a href=" ++ dq ++ Mustache.escape url ++ dq ++ ">github</a>.";
     "        <br/><br/>";
     "        If you find any bugs please report them on <a href=" ++ dq ++ "http://github.com/citadelgrad/ShiftIt/issues" ++ dq ++ ">github</a>.";
     "    </body>";
     "</html>"].

(** Neither the first nor the last character is white space. *)
Fixpoint last_char (c : ascii) (s : string) : ascii :=
  match s with
  | EmptyString => c
  | String d s' => last_char d s'
  end.

Definition trimmed (s : string) : bool :=
  match s with
  | EmptyString => true
  | String c s' => negb (isspace c) && negb (isspace (last_char c s'))
  end.

(** A pair back as two consecutive elements. *)
Definition unpair {A} (p : A * A) : list A := [fst p; snd p].

(** The names [info] prints, with their values. *)
Definition proj_bindings (g : Globals) : list (string * pyval) :=
  [("proj_name", Str (proj_name g));
   ("proj_info_plist", Str (proj_info_plist g));
   ("proj_src_dir", Str (proj_src_dir g));
   ("proj_github_token_file", Str (proj_github_token_file g));
   ("proj_sign_update_tool", Str (proj_sign_update_tool g));
   ("proj_build_dir", Str (proj_build_dir g));
   ("proj_app_dir", Str (proj_app_dir g));
   ("proj_public_key", Str (proj_public_key g));
   ("proj_version", Str (proj_version g));
   ("proj_archive_name", Str (proj_archive_name g));
   ("proj_archive_path", Str (proj_archive_path g));
   ("proj_download_url", Str (proj_download_url g));
   ("proj_release_notes_url", Str (proj_release_notes_url g));
   ("proj_release_notes_html_file", Str (proj_release_notes_html_file g));
   ("proj_appcast_file", Str (proj_appcast_file g));
   ("proj_github_token", Str (proj_github_token g))].

(** The two release-notes documents, for any list of closed issues. *)
Definition notes_md (closed_issues : list Issue) (url : string) : string :=
  match closed_issues with
  | [] => notes_md_without_issues url
  | _ => notes_md_with_issues closed_issues url
  end.

Definition notes_html (name version : string) (closed_issues : list Issue)
           (url : string) : string :=
  match closed_issues with
  | [] => notes_html_without_issues name version url
  | _ => notes_html_with_issues name version closed_issues url
  end.

(** The world after more was printed, more commands were run and more
    files were written (newest first); nothing else differs. *)
Definition logged (events : list event) (cmds : list string)
           (writes : list (string * string)) (w : World) : World :=
  {| out := (out w ++ events)%list;
     files := (writes ++ files w)%list;
     cwd := cwd w;
     tempfiles := tempfiles w;
     gpg_calls := gpg_calls w;
     commands := (commands w ++ cmds)%list |}.

(** What the build and archive stages echo. *)
Definition archive_echo (h : Host) (g : Globals) (w : World) : list event :=
  [Echoed (stdout (run_result h (proj_src_dir g) (build_command g)));
   Echoed (stdout (run_result h (cwd w) (ditto_command g)))].

(** What writing a document leaves in the record of writes: the file is
    emptied when opened, then gets its text. *)
Definition document (path text : string) : list (string * string) :=
  [(path, text); (path, EmptyString)].

(** What the pre-flight check of [release] prints. *)
Definition pending_changes_report (h : Host) (w : World) : list event :=
  let r := run_result h (cwd w) "git diff-index --quiet HEAD --" in
  Echoed (stdout r)
    :: (if Z.eqb (return_code r) 0 then [Printed pending_changes_warning] else []).

(** The scenario machine on which only the checkout directory exists. *)
Definition bare_host : Host :=
  {| sh_importable := false; gpg_on_path := false;
     gpg_d := fun _ => None;
     environ := [("SHIFTIT_GITHUB_USER", "citadelgrad")];
     expanduser := expanduser demo_host; fabfile_dir := fabfile_dir demo_host;
     initial_cwd := initial_cwd demo_host; run_result := run_result demo_host;
     isdir := fun p => String.eqb p "/Users/dev/ShiftIt";
     file_text := fun _ => None;
     writable := fun _ => true;
     getsize := fun _ => None;
     plist_dict := fun _ => inr [Some "CFBundleVersion"; Some "2.1.3"];
     now := now demo_host;
     mkstemp := mkstemp demo_host;
     iter_milestones := [ {| m_title := "3.0"; m_number := 3 |} ];
     iter_issues := demo_issues |}.

(** The scenario machine with a descriptor that has no feed URL. *)
Definition no_feed_url_host : Host :=
  {| sh_importable := true; gpg_on_path := true;
     gpg_d := gpg_d demo_host; environ := environ demo_host;
     expanduser := expanduser demo_host; fabfile_dir := fabfile_dir demo_host;
     initial_cwd := initial_cwd demo_host; run_result := run_result demo_host;
     isdir := isdir demo_host; file_text := file_text demo_host;
     writable := writable demo_host; getsize := getsize demo_host;
     plist_dict := fun _ => inr [Some "CFBundleVersion"; Some "2.1.3";
                                 Some "CFBundleName"; Some "SUFeedURL"; Some "odd"];
     now := now demo_host;
     mkstemp := mkstemp demo_host; iter_milestones := iter_milestones demo_host;
     iter_issues := iter_issues demo_host |}.

(** The scenario machine without the token file. *)
Definition no_token_host : Host :=
  {| sh_importable := true; gpg_on_path := true;
     gpg_d := gpg_d demo_host; environ := environ demo_host;
     expanduser := expanduser demo_host; fabfile_dir := fabfile_dir demo_host;
     initial_cwd := initial_cwd demo_host; run_result := run_result demo_host;
     isdir := isdir demo_host; file_text := fun _ => None;
     writable := writable demo_host; getsize := getsize demo_host;
     plist_dict := plist_dict demo_host; now := now demo_host;
     mkstemp := mkstemp demo_host; iter_milestones := iter_milestones demo_host;
     iter_issues := iter_issues demo_host |}.

(** The scenario machine when the tracker returns the closed issues
    oldest first. *)
Definition ordered_host : Host :=
  {| sh_importable := true; gpg_on_path := true;
     gpg_d := gpg_d demo_host; environ := environ demo_host;
     expanduser := expanduser demo_host; fabfile_dir := fabfile_dir demo_host;
     initial_cwd := initial_cwd demo_host; run_result := run_result demo_host;
     isdir := isdir demo_host; file_text := file_text demo_host;
     writable := writable demo_host; getsize := getsize demo_host;
     plist_dict := plist_dict demo_host; now := now demo_host;
     mkstemp := mkstemp demo_host; iter_milestones := iter_milestones demo_host;
     iter_issues := fun number st => rev (demo_issues number st) |}.

(** The signature attribute of the enclosure, as the feed template
    renders it. *)
Definition signature_attribute (signature : string) : string :=
  "sparkle:edSignature=" ++ dq ++ Mustache.escape signature ++ dq.

(** The command that reads the version, as the module issues it. *)
Definition version_command (w : World) : string :=
  "defaults read "
    ++ path_join (path_join (cwd w) ["ShiftIt"]) ["ShiftIt-Info.plist"]
    ++ " CFBundleVersion".

(** The scenario machine on which the archive is not there when its size
    is asked for. *)
Definition no_archive_host : Host :=
  {| sh_importable := true; gpg_on_path := true;
     gpg_d := gpg_d demo_host; environ := environ demo_host;
     expanduser := expanduser demo_host; fabfile_dir := fabfile_dir demo_host;
     initial_cwd := initial_cwd demo_host; run_result := run_result demo_host;
     isdir := isdir demo_host; file_text := file_text demo_host;
     writable := writable demo_host; getsize := fun _ => None;
     plist_dict := plist_dict demo_host; now := now demo_host;
     mkstemp := mkstemp demo_host; iter_milestones := iter_milestones demo_host;
     iter_issues := iter_issues demo_host |}.

(* ===================================================================== *)
(** * 5. Properties                                                       *)
(* ===================================================================== *)

(** ** 5.1 Strings *)

Lemma append_assoc (a b c : string) : (a ++ b) ++ c = a ++ (b ++ c).
Proof. induction a as [|x a IH]; simpl; [reflexivity | now rewrite IH]. Qed.

Lemma append_nil_r (a : string) : a ++ EmptyString = a.
Proof. induction a as [|x a IH]; simpl; [reflexivity | now rewrite IH]. Qed.

Lemma length_append (a b : string) :
  String.length (a ++ b) = (String.length a + String.length b)%nat.
Proof. induction a as [|x a IH]; simpl; [reflexivity | now rewrite IH]. Qed.

Lemma startswith_app (p r : string) : startswith (p ++ r) p = true.
Proof.
  induction p as [|c p IH]; simpl; [reflexivity|].
  now rewrite Ascii.eqb_refl, IH.
Qed.

Lemma startswith_iff (s p : string) :
  startswith s p = true <-> exists r, s = p ++ r.
Proof.
  split.
  - revert s. induction p as [|c p IH]; intros s H; simpl in *.
    + now exists s.
    + destruct s as [|d s]; [discriminate|].
      apply andb_true_iff in H as [Hc Hp].
      apply Ascii.eqb_eq in Hc. subst d.
      destruct (IH _ Hp) as [r ->]. now exists r.
  - intros [r ->]. apply startswith_app.
Qed.

Lemma drop_app (a b : string) : drop (String.length a) (a ++ b) = b.
Proof. induction a as [|x a IH]; simpl; [reflexivity | exact IH]. Qed.

Lemma drop_split (n : nat) (s : string) :
  (n <= String.length s)%nat ->
  exists pre, s = pre ++ drop n s /\ String.length pre = n.
Proof.
  revert s. induction n as [|n IH]; intros s Hn.
  - now exists EmptyString.
  - destruct s as [|c s]; simpl in *; [lia|].
    destruct (IH s) as (pre & Hs & Hl); [lia|].
    exists (String c pre). simpl. split; congruence.
Qed.

Lemma endswith_app (pre suf : string) : endswith (pre ++ suf) suf = true.
Proof.
  unfold endswith. rewrite length_append.
  apply andb_true_iff. split.
  - apply Nat.leb_le. lia.
  - replace (String.length pre + String.length suf - String.length suf)%nat
      with (String.length pre) by lia.
    rewrite drop_app. apply String.eqb_refl.
Qed.

Lemma endswith_iff (s suf : string) :
  endswith s suf = true <-> exists pre, s = pre ++ suf.
Proof.
  split.
  - unfold endswith. intros H. apply andb_true_iff in H as [Hl He].
    apply Nat.leb_le in Hl. apply String.eqb_eq in He.
    destruct (drop_split (String.length s - String.length suf) s) as (pre & Hs & _);
      [lia|].
    exists pre. now rewrite He in Hs.
  - intros [pre ->]. apply endswith_app.
Qed.

(** ** 5.2 Milestone resolution *)

Lemma _find_some {A} (f : A -> bool) (seq : list A) (x : A) :
  _find f seq = Some x <->
  exists pre post, seq = (pre ++ x :: post)%list /\ f x = true
                   /\ Forall (fun y => f y = false) pre.
Proof.
  split.
  - induction seq as [|y seq IH]; simpl; [discriminate|].
    destruct (f y) eqn:Hy.
    + intros [= ->]. exists [], seq. auto.
    + intros H. destruct (IH H) as (pre & post & -> & Hx & Hpre).
      exists (y :: pre), post. auto.
  - intros (pre & post & -> & Hx & Hpre).
    induction Hpre as [|y pre Hy _ IH]; simpl.
    + now rewrite Hx.
    + now rewrite Hy.
Qed.

Lemma _find_none {A} (f : A -> bool) (seq : list A) :
  _find f seq = None <-> Forall (fun y => f y = false) seq.
Proof.
  induction seq as [|y seq IH]; simpl.
  - split; auto.
  - destruct (f y) eqn:Hy.
    + split; [discriminate|]. intros H. inversion H; congruence.
    + rewrite IH. split; [auto|]. intros H. now inversion H.
Qed.

Lemma not_startswith (v title : string) :
  startswith v title = false <-> ~ is_prefix title v.
Proof.
  unfold is_prefix. rewrite <- startswith_iff.
  destruct (startswith v title); split; intros H; congruence.
Qed.

Lemma _get_milestone_found (v : string) (milestones : list Milestone) (m : Milestone) :
  _get_milestone v milestones = inr m <->
  exists pre post, milestones = (pre ++ m :: post)%list
                   /\ is_prefix (m_title m) v
                   /\ Forall (fun x => ~ is_prefix (m_title x) v) pre.
Proof.
  unfold _get_milestone.
  destruct (_find _ milestones) as [m'|] eqn:Hf.
  - split.
    + intros [= ->]. apply _find_some in Hf as (pre & post & -> & Hm & Hpre).
      exists pre, post. repeat split; [now apply startswith_iff|].
      eapply Forall_impl; [|exact Hpre]. intros x Hx. now apply not_startswith.
    + intros (pre & post & -> & Hm & Hpre). f_equal.
      assert (H : _find (fun m0 => startswith v (m_title m0)) (pre ++ m :: post)%list
                  = Some m).
      { apply _find_some. exists pre, post. repeat split; [now apply startswith_iff|].
        eapply Forall_impl; [|exact Hpre]. intros x Hx. now apply not_startswith. }
      congruence.
  - split; [discriminate|].
    intros (pre & post & -> & Hm & _).
    apply _find_none in Hf. rewrite Forall_forall in Hf.
    specialize (Hf m). rewrite in_app_iff in Hf. simpl in Hf.
    assert (Hs : startswith v (m_title m) = false) by (apply Hf; auto).
    apply not_startswith in Hs. contradiction.
Qed.

Lemma _get_milestone_missing (v : string) (milestones : list Milestone) :
  _get_milestone v milestones = inl (MilestoneNotFound v) <->
  Forall (fun x => ~ is_prefix (m_title x) v) milestones.
Proof.
  unfold _get_milestone, MilestoneNotFound.
  destruct (_find _ milestones) as [m'|] eqn:Hf.
  - split; [discriminate|]. intros H.
    apply _find_some in Hf as (pre & post & -> & Hm & _).
    rewrite Forall_forall in H. specialize (H m').
    rewrite in_app_iff in H. simpl in H.
    apply startswith_iff in Hm. exfalso. apply H; auto.
  - split.
    + intros _. apply _find_none in Hf.
      eapply Forall_impl; [|exact Hf]. intros x Hx. now apply not_startswith.
    + intros _. simpl. now rewrite append_nil_r.
Qed.

(** ** 5.3 Running to completion *)

Lemma bind_inr {A B} (m : M A) (k : A -> M B) (w w' : World) (y : B) :
  bind m k w = (inr y, w') ->
  exists x w1, m w = (inr x, w1) /\ k x w1 = (inr y, w').
Proof.
  unfold bind. destruct (m w) as [[e|x] w1]; [discriminate|].
  intros H. now exists x, w1.
Qed.

Lemma bind_inl {A B} (m : M A) (k : A -> M B) (w w' : World) (e : exn) :
  bind m k w = (inl e, w') ->
  m w = (inl e, w') \/ exists x w1, m w = (inr x, w1) /\ k x w1 = (inl e, w').
Proof.
  unfold bind. destruct (m w) as [[e'|x] w1].
  - intros [= -> ->]. now left.
  - intros H. right. now exists x, w1.
Qed.

Lemma or_raise_inr {A} (e : exn) (o : option A) (w w' : World) (x : A) :
  or_raise e o w = (inr x, w') -> o = Some x /\ w' = w.
Proof. destruct o; cbn; intros [= ]; subst; auto. Qed.

Lemma lift_inr {A} (r : exn + A) (w w' : World) (x : A) :
  lift r w = (inr x, w') -> r = inr x /\ w' = w.
Proof. unfold lift. intros [= -> ->]. auto. Qed.

(** ** 5.4 Ordering of the closed issues *)

Section Sorting.

Context {A : Type} (key : A -> Z).

Lemma insert_by_perm (x : A) (l : list A) :
  Permutation (x :: l) (insert_by key x l).
Proof.
  induction l as [|y l IH]; simpl; [reflexivity|].
  destruct (key x <=? key y)%Z; [reflexivity|].
  rewrite perm_swap. now constructor.
Qed.

Lemma sort_by_perm (l : list A) : Permutation l (sort_by key l).
Proof.
  induction l as [|x l IH]; simpl; [constructor|].
  rewrite <- insert_by_perm. now constructor.
Qed.

Lemma insert_by_sorted (x : A) (l : list A) :
  StronglySorted (key_le key) l -> StronglySorted (key_le key) (insert_by key x l).
Proof.
  induction 1 as [|y l Hl IH Hy]; simpl.
  - repeat constructor.
  - destruct (Z.leb_spec (key x) (key y)) as [Hxy|Hxy].
    + constructor; [now constructor|].
      constructor; [exact Hxy|].
      eapply Forall_impl; [|exact Hy]. unfold key_le. intros z Hz. lia.
    + constructor; [exact IH|].
      eapply Permutation_Forall; [apply insert_by_perm|].
      constructor; [unfold key_le; lia | exact Hy].
Qed.

Lemma sort_by_sorted (l : list A) : StronglySorted (key_le key) (sort_by key l).
Proof.
  induction l as [|x l IH]; simpl; [constructor|].
  now apply insert_by_sorted.
Qed.

Lemma insert_by_stable (t : Z) (x : A) (l : list A) :
  with_key key t (insert_by key x l) = with_key key t (x :: l).
Proof.
  unfold with_key.
  induction l as [|y l IH]; simpl; [reflexivity|].
  destruct (Z.leb_spec (key x) (key y)) as [Hxy|Hxy]; [reflexivity|].
  simpl. rewrite IH. simpl.
  destruct (Z.eqb_spec (key x) t), (Z.eqb_spec (key y) t); try reflexivity; lia.
Qed.

Lemma sort_by_stable (t : Z) (l : list A) :
  with_key key t (sort_by key l) = with_key key t l.
Proof.
  induction l as [|x l IH]; simpl; [reflexivity|].
  rewrite insert_by_stable. unfold with_key in *. simpl. now rewrite IH.
Qed.

End Sorting.

(** ** 5.5 The stages *)

Lemma release_pending_changes_runs (h : Host) (w : World) :
  let r := run_result h (cwd w) "git diff-index --quiet HEAD --" in
  release_pending_changes h w =
    (inr tt,
     {| out := ((out w ++ [Echoed (stdout r)])
                  ++ (if Z.eqb (return_code r) 0
                      then [Printed pending_changes_warning] else []))%list;
        files := files w; cwd := cwd w; tempfiles := tempfiles w;
        gpg_calls := gpg_calls w;
        commands := (commands w ++ ["git diff-index --quiet HEAD --"])%list |}).
Proof.
  cbv zeta. unfold release_pending_changes, settings, with_, local, bind, run, ret, puts, print.
  cbn. destruct (Z.eqb_spec (return_code (run_result h (cwd w) "git diff-index --quiet HEAD --")) 0);
    cbn; [|now rewrite app_nil_r].
  reflexivity.
Qed.

(** C1.  Milestone resolution takes the milestones in the order given and
    returns the first whose title is a string-prefix of the version; when
    no title is a prefix it raises the milestone-not-found exception, and
    the feed and release actions end with that exception without writing
    the update feed. *)
Theorem C1_milestone_first_prefix_match :
  forall (v : string) (milestones : list Milestone),
    (forall m, _get_milestone v milestones = inr m <->
               exists pre post, milestones = (pre ++ m :: post)%list
                                /\ is_prefix (m_title m) v
                                /\ Forall (fun x => ~ is_prefix (m_title x) v) pre)
    /\ (_get_milestone v milestones = inl (MilestoneNotFound v) <->
        Forall (fun x => ~ is_prefix (m_title x) v) milestones)
    /\ (forall h g w,
           iter_milestones h = milestones -> proj_version g = v ->
           Forall (fun x => ~ is_prefix (m_title x) v) milestones ->
           appcast h g w = (inl (MilestoneNotFound v), w)
           /\ fst (release h g w) = inl (MilestoneNotFound v)
           /\ files (snd (release h g w)) = files w).
Proof.
  intros v milestones. split; [|split].
  - intros m. apply _get_milestone_found.
  - apply _get_milestone_missing.
  - intros h g w Hm Hv Hnone. subst.
    apply _get_milestone_missing in Hnone.
    split; [|split].
    + unfold appcast, bind, lift. now rewrite Hnone.
    + unfold release, bind. rewrite release_pending_changes_runs.
      unfold lift. now rewrite Hnone.
    + unfold release, bind. rewrite release_pending_changes_runs.
      unfold lift. now rewrite Hnone.
Qed.

(** C4.  The closed issues of a milestone come out in ascending order of
    their closing time, they are the issues that were fetched, and issues
    closed at the same time keep the order in which they were fetched. *)
Theorem C4_closed_issues_sorted_stable :
  forall (h : Host) (milestone : Milestone),
    let fetched := iter_issues h (m_number milestone) st_closed in
    let closed_issues := closed_issues_of h milestone in
    StronglySorted (key_le i_closed_at) closed_issues
    /\ Permutation fetched closed_issues
    /\ forall t, with_key i_closed_at t closed_issues = with_key i_closed_at t fetched.
Proof.
  intros h milestone. cbv zeta. unfold closed_issues_of. split; [|split].
  - apply sort_by_sorted.
  - apply sort_by_perm.
  - intros t. apply sort_by_stable.
Qed.

Lemma percent_download_url (v a : string) :
  proj_download_url_of v a = Some (download_base ++ "/version-" ++ v ++ "/" ++ a).
Proof.
  unfold proj_download_url_of, download_base. cbn.
  now rewrite append_nil_r.
Qed.

Lemma load_module_settings (h : Host) (w w' : World) (g : Globals) :
  load_module h w = (inr g, w') ->
  proj_name g = "ShiftIt"
  /\ proj_archive_name g = proj_archive_name_of (proj_name g) (proj_version g)
  /\ proj_download_url_of (proj_version g) (proj_archive_name g)
     = Some (proj_download_url g)
  /\ file_text h (proj_github_token_file g) <> None
  /\ option_map strip (file_text h (proj_github_token_file g))
     = Some (proj_github_token g).
Proof.
  unfold load_module. intros H.
  apply bind_inr in H as (user & w1 & _ & H).
  apply bind_inr in H as (repo & w2 & _ & H).
  apply bind_inr in H as (token_file & w3 & _ & H).
  apply bind_inr in H as (here & w4 & _ & H).
  apply bind_inr in H as (version & w5 & _ & H).
  apply bind_inr in H as (url & w6 & Hurl & H).
  apply or_raise_inr in Hurl as [Hurl _].
  apply bind_inr in H as (token & w7 & Htok & H).
  unfold _load_github_token in Htok.
  apply bind_inr in Htok as (text & w8 & Htext & Htok).
  apply or_raise_inr in Htext as [Htext _].
  injection Htok as <- _. injection H as <- _. cbn.
  rewrite Htext. repeat split; auto. discriminate.
Qed.

(** C5.  The archive name is [{name}-{version}.zip] and the download URL
    is [{base}/version-{version}/{archive name}], for every name and
    version; for ShiftIt 2.1.3 they are [ShiftIt-2.1.3.zip] and a URL that
    ends in [/version-2.1.3/ShiftIt-2.1.3.zip]; and these are the values
    the loaded module holds. *)
Theorem C5_archive_naming :
  forall (name version : string),
    proj_archive_name_of name version = name ++ "-" ++ version ++ ".zip"
    /\ proj_download_url_of version (proj_archive_name_of name version)
       = Some (download_base ++ "/version-" ++ version ++ "/"
                 ++ proj_archive_name_of name version)
    /\ proj_archive_name_of "ShiftIt" "2.1.3" = "ShiftIt-2.1.3.zip"
    /\ (exists url,
          proj_download_url_of "2.1.3" (proj_archive_name_of "ShiftIt" "2.1.3") = Some url
          /\ endswith url "/version-2.1.3/ShiftIt-2.1.3.zip" = true)
    /\ (forall h w g w',
           load_module h w = (inr g, w') ->
           proj_archive_name g = proj_name g ++ "-" ++ proj_version g ++ ".zip"
           /\ proj_download_url g
              = download_base ++ "/version-" ++ proj_version g ++ "/" ++ proj_archive_name g).
Proof.
  intros name version. split; [reflexivity|]. split; [apply percent_download_url|].
  split; [reflexivity|]. split.
  - eexists. split; [reflexivity|]. vm_compute. reflexivity.
  - intros h w g w' H.
    apply load_module_settings in H as (_ & Hn & Hu & _).
    split; [exact Hn|].
    rewrite percent_download_url in Hu. now injection Hu.
Qed.

(** C7.  What the pre-flight check of the release action does: it never
    aborts, and it prints the pending-changes warning exactly when the
    check command exits with status zero, that is, when the working tree
    has no uncommitted changes. *)
Theorem C7_pending_changes_warning_on_clean_tree :
  forall (h : Host) (w : World),
    let r := run_result h (cwd w) "git diff-index --quiet HEAD --" in
    fst (release_pending_changes h w) = inr tt
    /\ out (snd (release_pending_changes h w))
       = ((out w ++ [Echoed (stdout r)])
            ++ (if Z.eqb (return_code r) 0
                then [Printed pending_changes_warning] else []))%list
    /\ (fst (release dirty_host demo_globals (initial_world dirty_host)) = inr tt
        /\ existsb (fun e => match e with
                             | Printed line => String.eqb line pending_changes_warning
                             | Echoed _ => false
                             end)
             (out (snd (release dirty_host demo_globals (initial_world dirty_host))))
           = false)
    /\ existsb (fun e => match e with
                         | Printed line => String.eqb line pending_changes_warning
                         | Echoed _ => false
                         end)
         (out (snd (release demo_host demo_globals (initial_world demo_host))))
       = true.
Proof.
  intros h w. cbv zeta. rewrite release_pending_changes_runs.
  split; [reflexivity|]. split; [reflexivity|].
  split; [split|]; vm_compute; reflexivity.
Qed.

(** ** 5.6 Credentials *)

Lemma get_decrypted_key_path_plain (h : Host) (path : string) (w : World) :
  endswith path ".gpg" = false -> get_decrypted_key_path h path w = (inr path, w).
Proof. unfold get_decrypted_key_path. now intros ->. Qed.

Lemma append_at_last (l : list (string * string)) (name text data : string) :
  append_at (length l) data (l ++ [(name, text)])%list
  = (l ++ [(name, append text data)])%list.
Proof.
  induction l as [|[n t] l IH]; simpl; [reflexivity|]. now rewrite IH.
Qed.

Lemma get_decrypted_key_path_encrypted (h : Host) (path text : string) (w : World) :
  endswith path ".gpg" = true ->
  import_gpg h = gpg_command ->
  gpg_d h path = Some text ->
  get_decrypted_key_path h path w =
    (inr (mkstemp h (map fst (tempfiles w))),
     {| out := out w; files := files w; cwd := cwd w;
        tempfiles := (tempfiles w ++ [(mkstemp h (map fst (tempfiles w)), text)])%list;
        gpg_calls := (gpg_calls w ++ [path])%list;
        commands := commands w |}).
Proof.
  intros Hp Hg Hd. unfold get_decrypted_key_path, bind, new_tempfile, gpg, fh_write, ret.
  rewrite Hp, Hg. cbn. rewrite Hd. cbn. now rewrite append_at_last.
Qed.

Lemma get_decrypted_key_path_unavailable (h : Host) (path msg : string) (w w' : World) :
  get_decrypted_key_path h path w = (inl (NotImplementedError msg), w') ->
  endswith path ".gpg" = true /\ import_gpg h = gpg_stub.
Proof.
  unfold get_decrypted_key_path.
  destruct (endswith path ".gpg"); cbn; [|discriminate].
  unfold bind, new_tempfile, gpg, fh_write, ret.
  destruct (import_gpg h); cbn; [|auto].
  destruct (gpg_d h path); cbn; discriminate.
Qed.

Lemma environ_item_not_unavailable (h : Host) (key msg : string) (w w' : World) :
  environ_item h key w <> (inl (NotImplementedError msg), w').
Proof.
  unfold environ_item, or_raise. destruct (Mustache.lookup key (environ h)); discriminate.
Qed.

Lemma load_module_unavailable (h : Host) (msg : string) (w w' : World) :
  load_module h w = (inl (NotImplementedError msg), w') ->
  endswith (configured_token_path h) ".gpg" = true /\ import_gpg h = gpg_stub.
Proof.
  unfold load_module. intros H.
  apply bind_inl in H as [H|(user & w1 & _ & H)];
    [now apply environ_item_not_unavailable in H|].
  apply bind_inl in H as [H|(repo & w2 & _ & H)];
    [now apply environ_item_not_unavailable in H|].
  apply bind_inl in H as [H|(token_file & w3 & _ & H)];
    [now apply get_decrypted_key_path_unavailable in H|].
  exfalso.
  apply bind_inl in H as [H|(here & w4 & _ & H)]; [discriminate|].
  apply bind_inl in H as [H|(version & w5 & _ & H)].
  { unfold _get_bundle_version, fmt in H. cbn in H. discriminate. }
  apply bind_inl in H as [H|(url & w6 & _ & H)].
  { rewrite percent_download_url in H. discriminate. }
  apply bind_inl in H as [H|(token & w7 & _ & H)]; [|discriminate].
  unfold _load_github_token in H.
  apply bind_inl in H as [H|(text & w8 & _ & H)]; [|discriminate].
  unfold or_raise in H. destruct (file_text h token_file); discriminate.
Qed.

(** C8.  A path that does not end in [.gpg] is returned as it is, with no
    call of the decryption tool and nothing else changed, whether or not
    the tool is installed; the decryption-unavailable exception comes
    only from resolving a path that ends in [.gpg] on a host without the
    tool, and loading the module raises it only when the configured token
    path is such a path. *)
Theorem C8_plain_path_unchanged_lazy_unavailable :
  forall (h : Host) (p : string) (w : World),
    (endswith p ".gpg" = false ->
     get_decrypted_key_path h p w = (inr p, w))
    /\ (forall msg w',
           get_decrypted_key_path h p w = (inl (NotImplementedError msg), w') ->
           endswith p ".gpg" = true /\ import_gpg h = gpg_stub)
    /\ (forall msg w',
           load_module h w = (inl (NotImplementedError msg), w') ->
           endswith (configured_token_path h) ".gpg" = true /\ import_gpg h = gpg_stub)
    /\ fst (load_module no_gpg_host (initial_world no_gpg_host)) = inr demo_globals.
Proof.
  intros h p w. split; [apply get_decrypted_key_path_plain|].
  split; [intros msg w'; apply get_decrypted_key_path_unavailable|].
  split; [intros msg w'; apply load_module_unavailable|].
  vm_compute. reflexivity.
Qed.

(** C2, as the claim states it, fails: on a host with the decryption tool,
    resolving one encrypted path twice runs the tool twice and returns
    two different paths. *)
Lemma C2_counterexample_second_call_decrypts_again :
  let p := "/Users/dev/Keys/github.token.gpg" in
  let first := get_decrypted_key_path gpg_host p (initial_world gpg_host) in
  let second := get_decrypted_key_path gpg_host p (snd first) in
  endswith p ".gpg" = true
  /\ fst first = inr "/tmp/tmp"
  /\ fst second = inr "/tmp/tmpx"
  /\ gpg_calls (snd second) = [p; p].
Proof. vm_compute. repeat split. Qed.

(** C2, amended.  Every resolution of an encrypted path runs the
    decryption tool once and returns the name of a temporary file created
    by that call and kept; two resolutions of one path run the tool
    twice and keep two temporary files with the decrypted text, and their
    names differ whenever new temporary files get unused names. *)
Theorem C2_resolution_decrypts_on_every_call :
  forall (h : Host) (p text : string) (w : World),
    endswith p ".gpg" = true ->
    import_gpg h = gpg_command ->
    gpg_d h p = Some text ->
    let first := get_decrypted_key_path h p w in
    let second := get_decrypted_key_path h p (snd first) in
    let n1 := mkstemp h (map fst (tempfiles w)) in
    let n2 := mkstemp h (map fst (tempfiles w) ++ [n1])%list in
    fst first = inr n1
    /\ fst second = inr n2
    /\ gpg_calls (snd second) = (gpg_calls w ++ [p; p])%list
    /\ tempfiles (snd second) = (tempfiles w ++ [(n1, text); (n2, text)])%list
    /\ ((forall live, ~ In (mkstemp h live) live) -> n1 <> n2).
Proof.
  intros h p text w Hp Hg Hd. cbv zeta.
  rewrite (get_decrypted_key_path_encrypted h p text w Hp Hg Hd). cbn [fst snd].
  rewrite (get_decrypted_key_path_encrypted h p text _ Hp Hg Hd). cbn [fst snd tempfiles gpg_calls].
  rewrite map_app. cbn [map fst].
  rewrite <- !app_assoc. cbn [app].
  repeat split.
  intros Hfresh Heq.
  apply (Hfresh (map fst (tempfiles w) ++ [mkstemp h (map fst (tempfiles w))])%list).
  rewrite <- Heq. apply in_or_app. right. now left.
Qed.

(** The amended C2 on the host with an encrypted token. *)
Lemma C2_resolution_decrypts_on_every_call_witness :
  let h := gpg_host in
  let p := "/Users/dev/Keys/github.token.gpg" in
  let text := "0123456789abcdef" ++ nl in
  let w := initial_world gpg_host in
  let first := get_decrypted_key_path h p w in
  let second := get_decrypted_key_path h p (snd first) in
  let n1 := mkstemp h (map fst (tempfiles w)) in
  let n2 := mkstemp h (map fst (tempfiles w) ++ [n1])%list in
  fst first = inr n1
  /\ fst second = inr n2
  /\ gpg_calls (snd second) = (gpg_calls w ++ [p; p])%list
  /\ tempfiles (snd second) = (tempfiles w ++ [(n1, text); (n2, text)])%list
  /\ ((forall live, ~ In (mkstemp h live) live) -> n1 <> n2).
Proof.
  exact (C2_resolution_decrypts_on_every_call gpg_host
           "/Users/dev/Keys/github.token.gpg" ("0123456789abcdef" ++ nl)
           (initial_world gpg_host) eq_refl eq_refl eq_refl).
Defined.

(** ** 5.7 The info action *)

Lemma percent_info_line (k v : string) :
  percent (tab ++ "%s: %s") [PyStr k; PyStr v] = Some (tab ++ k ++ ": " ++ v).
Proof. cbn. now rewrite append_nil_r. Qed.

Lemma info_lines_run (l : list (string * pyval)) (w : World) :
  for_each l
    (fun kv =>
       line <- fmt (tab ++ "%s: %s")
                   [PyStr (drop (String.length "proj_") (fst kv));
                    PyStr (str_of_pyval (snd kv))] ;;
       print line) w
  = (inr tt,
     {| out := (out w ++ map info_line l)%list; files := files w; cwd := cwd w;
        tempfiles := tempfiles w; gpg_calls := gpg_calls w; commands := commands w |}).
Proof.
  revert w. induction l as [|kv l IH]; intros w.
  - cbn. rewrite app_nil_r. now destruct w.
  - cbn [for_each]. unfold bind at 1. unfold bind at 1. unfold fmt.
    rewrite percent_info_line. cbn [or_raise ret print].
    rewrite IH. cbn. now rewrite <- app_assoc.
Qed.

Lemma info_runs (h : Host) (g : Globals) (w : World) :
  info h g w
  = (inr tt,
     {| out := (out w ++ Printed "Build info:"
                  :: map info_line
                       (filter (fun kv => startswith (fst kv) "proj_") (globals_items h g)))%list;
        files := files w; cwd := cwd w;
        tempfiles := tempfiles w; gpg_calls := gpg_calls w; commands := commands w |}).
Proof.
  unfold info. unfold bind at 1. cbn [print].
  rewrite info_lines_run. cbn [out files cwd tempfiles gpg_calls commands].
  now rewrite <- app_assoc.
Qed.

(** C10.  The info action prints every binding of the module namespace
    whose name starts with [proj_], as the name without the prefix and the
    value; [proj_github_token] is one of them, so the token read from the
    credential file is printed. *)
Theorem C10_info_prints_the_token :
  forall (h : Host) (g : Globals) (w : World),
    fst (info h g w) = inr tt
    /\ (forall k v,
           In (k, v) (globals_items h g) -> startswith k "proj_" = true ->
           In (Printed (tab ++ drop 5 k ++ ": " ++ str_of_pyval v))
              (out (snd (info h g w))))
    /\ In (Printed (tab ++ "github_token: " ++ proj_github_token g))
          (out (snd (info h g w)))
    /\ (forall w0 w1,
           load_module h w0 = (inr g, w1) ->
           option_map strip (file_text h (proj_github_token_file g))
           = Some (proj_github_token g)).
Proof.
  intros h g w. rewrite info_runs. cbn [fst snd out].
  assert (Hall : forall k v,
             In (k, v) (globals_items h g) -> startswith k "proj_" = true ->
             In (Printed (tab ++ drop 5 k ++ ": " ++ str_of_pyval v))
                (out w ++ Printed "Build info:"
                   :: map info_line
                        (filter (fun kv => startswith (fst kv) "proj_")
                                (globals_items h g)))%list).
  { intros k v Hin Hk. apply in_or_app. right. right.
    change (Printed (tab ++ drop 5 k ++ ": " ++ str_of_pyval v)) with (info_line (k, v)).
    apply in_map. apply filter_In. auto. }
  split; [reflexivity|]. split; [exact Hall|]. split.
  - apply (Hall "proj_github_token" (Str (proj_github_token g))); [|reflexivity].
    unfold globals_items. apply in_or_app. right. apply in_or_app. right.
    cbn [In]. repeat (try (left; reflexivity); right).
  - intros w0 w1 H. now apply load_module_settings in H.
Qed.

(** ** 5.8 Documents *)

Lemma parse_release_notes_html :
  Mustache.parse release_notes_template_html = Some release_notes_html_nodes.
Proof. vm_compute. reflexivity. Qed.

Lemma parse_release_notes_md :
  Mustache.parse release_notes_template_md = Some release_notes_md_nodes.
Proof. vm_compute. reflexivity. Qed.

Lemma parse_appcast : Mustache.parse appcast_template = Some appcast_nodes.
Proof. vm_compute. reflexivity. Qed.

Ltac flatten_text := cbn; rewrite ?append_assoc; cbn; rewrite ?append_assoc; cbn.

Lemma render_md_without_issues (name version url : string) :
  Mustache.render release_notes_template_md (release_notes_context name version [] url)
  = inr (notes_md_without_issues url).
Proof.
  unfold Mustache.render. rewrite parse_release_notes_md. f_equal.
  unfold release_notes_md_nodes, notes_md_without_issues, release_notes_context.
  flatten_text. reflexivity.
Qed.

Lemma render_html_without_issues (name version url : string) :
  Mustache.render release_notes_template_html (release_notes_context name version [] url)
  = inr (notes_html_without_issues name version url).
Proof.
  unfold Mustache.render. rewrite parse_release_notes_html. f_equal.
  unfold release_notes_html_nodes, notes_html_without_issues, release_notes_context.
  flatten_text. reflexivity.
Qed.

Lemma render_appcast (g : Globals) (url date : string) (size : Z) (sig : string) :
  Mustache.render appcast_template (appcast_context g url date size sig)
  = inr (appcast_xml g url date size sig).
Proof.
  unfold Mustache.render. rewrite parse_appcast. f_equal.
  unfold appcast_nodes, appcast_xml, appcast_context.
  flatten_text. reflexivity.
Qed.

Lemma percent_milestone_url (milestone : Milestone) :
  percent "https://github.com/citadelgrad/ShiftIt/issues?milestone=%d"
          [PyInt (m_number milestone)]
  = Some (milestone_url_of milestone).
Proof. unfold milestone_url_of. cbn. now rewrite append_nil_r. Qed.

Lemma _gen_release_notes_runs (h : Host) (g : Globals) (template : string)
      (milestone : Milestone) (w : World) :
  _get_milestone (proj_version g) (iter_milestones h) = inr milestone ->
  _gen_release_notes h g template w
  = (Mustache.render template
       (release_notes_context (proj_name g) (proj_version g)
          (closed_issues_of h milestone) (milestone_url_of milestone)), w).
Proof.
  intros Hm. unfold _gen_release_notes, bind, lift, fmt. rewrite Hm.
  now rewrite percent_milestone_url.
Qed.

(** C6.  With no closed issue on the milestone, the aggregation yields
    the empty list and no error, the has-issues flag of the context is
    false, and both release-notes documents come out without the section
    of closed issues: the fixed text of the two documents has no heading
    and no list. *)
Theorem C6_no_closed_issues_no_section :
  forall (h : Host) (g : Globals) (w : World) (milestone : Milestone),
    _get_milestone (proj_version g) (iter_milestones h) = inr milestone ->
    iter_issues h (m_number milestone) st_closed = [] ->
    let url := milestone_url_of milestone in
    let release_notes :=
      release_notes_context (proj_name g) (proj_version g)
        (closed_issues_of h milestone) url in
    closed_issues_of h milestone = []
    /\ Mustache.lookup "has_issues" release_notes = Some (Mustache.Scalar (PyBool false))
    /\ _gen_release_notes h g release_notes_template_html w
       = (inr (notes_html_without_issues (proj_name g) (proj_version g) url), w)
    /\ _gen_release_notes h g release_notes_template_md w
       = (inr (notes_md_without_issues url), w)
    /\ contains (notes_html_without_issues EmptyString EmptyString EmptyString)
                "Issues closed" = false
    /\ contains (notes_html_without_issues EmptyString EmptyString EmptyString)
                "<ul>" = false
    /\ contains (notes_md_without_issues EmptyString) "Issues closed" = false.
Proof.
  intros h g w milestone Hm Hnone. cbv zeta.
  assert (Hc : closed_issues_of h milestone = []).
  { unfold closed_issues_of. now rewrite Hnone. }
  rewrite !(_gen_release_notes_runs h g _ milestone w Hm), Hc.
  rewrite render_html_without_issues, render_md_without_issues.
  repeat split; vm_compute; reflexivity.
Qed.

(** C6 on the host whose milestone 2.1 has no closed issue. *)
Lemma C6_no_closed_issues_no_section_witness :
  let h := quiet_host in
  let g := demo_globals in
  let w := initial_world quiet_host in
  let milestone := {| m_title := "2.1"; m_number := 2 |} in
  let url := milestone_url_of milestone in
  let release_notes :=
    release_notes_context (proj_name g) (proj_version g)
      (closed_issues_of h milestone) url in
  closed_issues_of h milestone = []
  /\ Mustache.lookup "has_issues" release_notes = Some (Mustache.Scalar (PyBool false))
  /\ _gen_release_notes h g release_notes_template_html w
     = (inr (notes_html_without_issues (proj_name g) (proj_version g) url), w)
  /\ _gen_release_notes h g release_notes_template_md w
     = (inr (notes_md_without_issues url), w)
  /\ contains (notes_html_without_issues EmptyString EmptyString EmptyString)
              "Issues closed" = false
  /\ contains (notes_html_without_issues EmptyString EmptyString EmptyString)
              "<ul>" = false
  /\ contains (notes_md_without_issues EmptyString) "Issues closed" = false.
Proof.
  exact (C6_no_closed_issues_no_section quiet_host demo_globals
           (initial_world quiet_host) {| m_title := "2.1"; m_number := 2 |}
           eq_refl eq_refl).
Defined.

(** C9.  Each of the three templates renders, for every context, to a
    text that is the same whenever and in whatever state of the run the
    rendering happens, and rendering changes nothing. *)
Theorem C9_rendering_deterministic :
  Forall (fun template =>
            forall (ctx : Mustache.context) (w1 w2 : World),
              exists text,
                lift (Mustache.render template ctx) w1 = (inr text, w1)
                /\ lift (Mustache.render template ctx) w2 = (inr text, w2))
         [release_notes_template_html; release_notes_template_md; appcast_template].
Proof.
  repeat constructor; intros ctx w1 w2; unfold lift, Mustache.render.
  - rewrite parse_release_notes_html. eexists. split; reflexivity.
  - rewrite parse_release_notes_md. eexists. split; reflexivity.
  - rewrite parse_appcast. eexists. split; reflexivity.
Qed.

(** ** 5.9 The update feed *)

Lemma percent_two (a b : string) :
  percent "%s %s" [PyStr a; PyStr b] = Some (a ++ " " ++ b).
Proof. cbn. now rewrite append_nil_r. Qed.

(** The theorem of C3 is in 6.12, after the lemmas on the stages it runs. *)

(* ===================================================================== *)
(** * 6. Further properties of the module                                 *)
(* ===================================================================== *)

(** ** 6.1 Release notes for any list of closed issues *)

Lemma section_body_nodes (stack : list Mustache.frame) (body : list Mustache.node) :
  (fix go (ns : list Mustache.node) : string :=
     match ns with
     | [] => EmptyString
     | n' :: ns' => Mustache.render_node stack n' ++ go ns'
     end) body
  = Mustache.render_nodes stack body.
Proof. induction body as [|n body IH]; cbn; [reflexivity | now rewrite IH]. Qed.

Lemma render_section (stack : list Mustache.frame) (key : string)
      (body : list Mustache.node) :
  Mustache.render_node stack (Mustache.NSection false key body)
  = concat_map (fun f => Mustache.render_nodes (f :: stack) body)
      (Mustache.section_frames (Mustache.resolve key stack)).
Proof.
  cbn. induction (Mustache.section_frames (Mustache.resolve key stack)) as [|f fs IH].
  - reflexivity.
  - cbn [concat_map]. rewrite <- IH, <- section_body_nodes. reflexivity.
Qed.

Lemma concat_map_map {A B} (f : B -> string) (g : A -> B) (l : list A) :
  concat_map f (map g l) = concat_map (fun x => f (g x)) l.
Proof. induction l as [|x l IH]; cbn; [reflexivity | now rewrite IH]. Qed.

Lemma concat_map_ext {A} (f g : A -> string) (l : list A) :
  (forall x, f x = g x) -> concat_map f l = concat_map g l.
Proof. intros H. induction l as [|x l IH]; cbn; [reflexivity | now rewrite H, IH]. Qed.

Lemma render_md_with_issues (name version url : string) (i : Issue) (l : list Issue) :
  Mustache.render release_notes_template_md
    (release_notes_context name version (i :: l) url)
  = inr (notes_md_with_issues (i :: l) url).
Proof.
  unfold Mustache.render. rewrite parse_release_notes_md. f_equal.
  unfold release_notes_md_nodes.
  cbn [Mustache.render_nodes]. rewrite render_section.
  cbn [release_notes_context length Nat.ltb Nat.leb Mustache.resolve Mustache.lookup
       String.eqb Ascii.eqb Bool.eqb Mustache.section_frames Mustache.truthy_scalar
       concat_map Mustache.render_nodes].
  rewrite render_section. unfold release_notes_context.
  cbn [Mustache.resolve Mustache.lookup String.eqb Ascii.eqb Bool.eqb
       Mustache.section_frames].
  rewrite !concat_map_map.
  rewrite (concat_map_ext _ md_issue_line).
  - unfold notes_md_with_issues, notes_md_without_issues.
    flatten_text. reflexivity.
  - intros x. unfold md_issue_line. flatten_text. reflexivity.
Qed.

Lemma render_html_with_issues (name version url : string) (i : Issue) (l : list Issue) :
  Mustache.render release_notes_template_html
    (release_notes_context name version (i :: l) url)
  = inr (notes_html_with_issues name version (i :: l) url).
Proof.
  unfold Mustache.render. rewrite parse_release_notes_html. f_equal.
  unfold release_notes_html_nodes.
  cbn [Mustache.render_nodes]. rewrite render_section.
  cbn [release_notes_context length Nat.ltb Nat.leb Mustache.resolve Mustache.lookup
       String.eqb Ascii.eqb Bool.eqb Mustache.section_frames Mustache.truthy_scalar
       concat_map Mustache.render_nodes].
  rewrite render_section. unfold release_notes_context.
  cbn [Mustache.resolve Mustache.lookup String.eqb Ascii.eqb Bool.eqb
       Mustache.section_frames].
  rewrite !concat_map_map.
  rewrite (concat_map_ext _ html_issue_line).
  - unfold notes_html_with_issues.
    flatten_text. reflexivity.
  - intros x. unfold html_issue_line. flatten_text. reflexivity.
Qed.

Lemma gen_release_notes_texts (h : Host) (g : Globals) (w : World)
      (milestone : Milestone) :
  _get_milestone (proj_version g) (iter_milestones h) = inr milestone ->
  _gen_release_notes h g release_notes_template_md w
  = (inr (notes_md (closed_issues_of h milestone) (milestone_url_of milestone)), w)
  /\ _gen_release_notes h g release_notes_template_html w
     = (inr (notes_html (proj_name g) (proj_version g)
               (closed_issues_of h milestone) (milestone_url_of milestone)), w).
Proof.
  intros Hm.
  rewrite !(_gen_release_notes_runs h g _ milestone w Hm).
  destruct (closed_issues_of h milestone) as [|i l]; cbn [notes_md notes_html].
  - now rewrite render_md_without_issues, render_html_without_issues.
  - now rewrite render_md_with_issues, render_html_with_issues.
Qed.

(** X1.  Once the milestone is resolved, the release notes are: the fixed
    opening, then, when there is at least one closed issue, the heading
    and one line per closed issue in ascending order of closing time with
    number, link and title escaped, then the fixed closing with the
    milestone link; with no closed issue the heading and the list are
    absent.  Generating them changes nothing. *)
Theorem X1_release_notes_list_every_closed_issue :
  forall (h : Host) (g : Globals) (w : World) (milestone : Milestone),
    _get_milestone (proj_version g) (iter_milestones h) = inr milestone ->
    _gen_release_notes h g release_notes_template_md w
    = (inr (notes_md (closed_issues_of h milestone) (milestone_url_of milestone)), w)
    /\ _gen_release_notes h g release_notes_template_html w
       = (inr (notes_html (proj_name g) (proj_version g)
                 (closed_issues_of h milestone) (milestone_url_of milestone)), w).
Proof.
  intros h g w milestone. apply gen_release_notes_texts.
Qed.

(** X1 on the host of the scenario: two closed issues, fetched newest
    first, listed oldest first. *)
Lemma X1_release_notes_list_every_closed_issue_witness :
  _gen_release_notes demo_host demo_globals release_notes_template_md
    (initial_world demo_host)
  = (inr (notes_md (closed_issues_of demo_host {| m_title := "2.1"; m_number := 2 |})
            (milestone_url_of {| m_title := "2.1"; m_number := 2 |})),
     initial_world demo_host)
  /\ _gen_release_notes demo_host demo_globals release_notes_template_html
       (initial_world demo_host)
     = (inr (notes_html (proj_name demo_globals) (proj_version demo_globals)
               (closed_issues_of demo_host {| m_title := "2.1"; m_number := 2 |})
               (milestone_url_of {| m_title := "2.1"; m_number := 2 |})),
        initial_world demo_host).
Proof.
  exact (X1_release_notes_list_every_closed_issue demo_host demo_globals
           (initial_world demo_host) {| m_title := "2.1"; m_number := 2 |} eq_refl).
Defined.

(** ** 6.2 Working directory, build and archive *)

Lemma lcd_runs {A} (h : Host) (path : string) (body : M A) (w : World) :
  isdir h path = true ->
  isdir h (cwd w) = true ->
  lcd h path body w
  = (fst (body (in_directory path w)),
     in_directory (cwd w) (snd (body (in_directory path w)))).
Proof.
  intros Hp Hc.
  unfold lcd, bind, getcwd, with_, chdir. cbn. rewrite Hp.
  fold (in_directory path w).
  destruct (body (in_directory path w)) as [r w1]. cbn. now rewrite Hc.
Qed.

Lemma lcd_fails {A} (h : Host) (path : string) (body : M A) (w : World) :
  isdir h path = false ->
  lcd h path body w = (inl (OSError path), w).
Proof.
  intros Hp. unfold lcd, bind, getcwd, with_, chdir. cbn. now rewrite Hp.
Qed.



Lemma percent_ditto_command (g : Globals) :
  percent "ditto -ck --keepParent %s %s"
          [PyStr (proj_app_dir g); PyStr (proj_archive_path g)]
  = Some (ditto_command g).
Proof. unfold ditto_command. cbn. now rewrite append_nil_r. Qed.

Lemma logged_nothing (w : World) : logged [] [] [] w = w.
Proof. destruct w. unfold logged. cbn. now rewrite !app_nil_r. Qed.

Lemma logged_logged (e1 e2 : list event) (c1 c2 : list string)
      (f1 f2 : list (string * string)) (w : World) :
  logged e2 c2 f2 (logged e1 c1 f1 w)
  = logged (e1 ++ e2) (c1 ++ c2) (f2 ++ f1) w.
Proof. unfold logged. cbn. now rewrite !app_assoc. Qed.

Lemma build_runs (h : Host) (g : Globals) (w : World) :
  isdir h (proj_src_dir g) = true ->
  isdir h (cwd w) = true ->
  build h g w
  = (inr tt,
     logged [Echoed (stdout (run_result h (proj_src_dir g) (build_command g)))]
            [build_command g] [] w).
Proof.
  intros Hs Hc. unfold build. rewrite lcd_runs by assumption. reflexivity.
Qed.

Lemma archive_runs (h : Host) (g : Globals) (w : World) :
  isdir h (proj_src_dir g) = true ->
  isdir h (cwd w) = true ->
  archive h g w
  = (inr tt, logged (archive_echo h g w) [build_command g; ditto_command g] [] w).
Proof.
  intros Hs Hc. unfold archive, execute, bind. rewrite build_runs by assumption.
  unfold fmt. rewrite percent_ditto_command. cbn.
  unfold logged, archive_echo. cbn. now rewrite <- !app_assoc.
Qed.

Lemma build_inr_dirs (h : Host) (g : Globals) (w w1 : World) :
  build h g w = (inr tt, w1) ->
  isdir h (proj_src_dir g) = true /\ isdir h (cwd w) = true.
Proof.
  unfold build, lcd, with_, bind, getcwd, chdir, fmt, local, run, ret. cbn.
  intros H. destruct (isdir h (proj_src_dir g)); [|discriminate]. cbn in H.
  destruct (isdir h (cwd w)); [auto|discriminate].
Qed.

Lemma archive_inr (h : Host) (g : Globals) (w w1 : World) :
  archive h g w = (inr tt, w1) ->
  w1 = logged (archive_echo h g w) [build_command g; ditto_command g] [] w.
Proof.
  intros H. assert (H' := H). unfold archive, execute in H'.
  apply bind_inr in H' as ([] & wb & Hb & _).
  apply build_inr_dirs in Hb as [Hs Hc].
  rewrite archive_runs in H by assumption. now injection H.
Qed.

(** X3.  The archive stage does not look at how the build ended: when the
    source directory and the current directory exist, it runs the build
    command in the source directory, then the archive command back in the
    current directory, and completes, whatever exit status the two
    commands report; it leaves the working directory, the files written
    and the temporary files as they were. *)
Theorem X3_archive_runs_whatever_the_build_status :
  forall (h : Host) (g : Globals) (w : World),
    isdir h (proj_src_dir g) = true ->
    isdir h (cwd w) = true ->
    archive h g w
    = (inr tt,
       logged [Echoed (stdout (run_result h (proj_src_dir g) (build_command g)));
               Echoed (stdout (run_result h (cwd w) (ditto_command g)))]
              [build_command g; ditto_command g] [] w).
Proof. intros h g w. apply archive_runs. Qed.

(** X3 on the scenario host. *)
Lemma X3_archive_runs_whatever_the_build_status_witness :
  archive demo_host demo_globals (initial_world demo_host)
  = (inr tt,
     logged [Echoed (stdout (run_result demo_host (proj_src_dir demo_globals)
                               (build_command demo_globals)));
             Echoed (stdout (run_result demo_host (cwd (initial_world demo_host))
                               (ditto_command demo_globals)))]
            [build_command demo_globals; ditto_command demo_globals] []
            (initial_world demo_host)).
Proof.
  exact (X3_archive_runs_whatever_the_build_status demo_host demo_globals
           (initial_world demo_host) eq_refl eq_refl).
Defined.

(** X4.  Without the source directory the build raises before any command
    is run, and so does the archive stage: nothing is built, nothing is
    archived, the state is as it was. *)
Theorem X4_no_source_directory_no_command :
  forall (h : Host) (g : Globals) (w : World),
    isdir h (proj_src_dir g) = false ->
    build h g w = (inl (OSError (proj_src_dir g)), w)
    /\ archive h g w = (inl (OSError (proj_src_dir g)), w).
Proof.
  intros h g w Hs.
  assert (Hb : build h g w = (inl (OSError (proj_src_dir g)), w)).
  { unfold build. now apply lcd_fails. }
  split; [exact Hb|]. unfold archive, execute, bind. now rewrite Hb.
Qed.

(** X4 on the machine where only the checkout directory exists. *)
Lemma X4_no_source_directory_no_command_witness :
  build bare_host demo_globals (initial_world bare_host)
  = (inl (OSError (proj_src_dir demo_globals)), initial_world bare_host)
  /\ archive bare_host demo_globals (initial_world bare_host)
     = (inl (OSError (proj_src_dir demo_globals)), initial_world bare_host).
Proof.
  exact (X4_no_source_directory_no_command bare_host demo_globals
           (initial_world bare_host) eq_refl).
Defined.

(** ** 6.3 Credentials that cannot be decrypted *)

(** X5.  When an encrypted path cannot be decrypted, because the tool is
    missing or because it exits with an error, resolution raises, and the
    temporary file it had already created stays in
    [DecryptedFiles.tempfiles], empty. *)
Theorem X5_failed_decryption_leaves_empty_tempfile :
  forall (h : Host) (p : string) (w : World),
    endswith p ".gpg" = true ->
    import_gpg h = gpg_stub \/ gpg_d h p = None ->
    exists e,
      fst (get_decrypted_key_path h p w) = inl e
      /\ tempfiles (snd (get_decrypted_key_path h p w))
         = (tempfiles w ++ [(mkstemp h (map fst (tempfiles w)), EmptyString)])%list.
Proof.
  intros h p w Hp Hfail.
  unfold get_decrypted_key_path, bind, new_tempfile, gpg. rewrite Hp. cbn.
  destruct (import_gpg h) eqn:Hg.
  - destruct Hfail as [Hstub|Hd]; [discriminate|]. rewrite Hd. cbn.
    eexists. split; reflexivity.
  - cbn. eexists. split; reflexivity.
Qed.

(** X5 on the machine without the tool. *)
Lemma X5_failed_decryption_leaves_empty_tempfile_witness :
  exists e,
    fst (get_decrypted_key_path bare_host "github.token.gpg" (initial_world bare_host))
    = inl e
    /\ tempfiles (snd (get_decrypted_key_path bare_host "github.token.gpg"
                         (initial_world bare_host)))
       = (tempfiles (initial_world bare_host)
            ++ [(mkstemp bare_host (map fst (tempfiles (initial_world bare_host))),
                 EmptyString)])%list.
Proof.
  exact (X5_failed_decryption_leaves_empty_tempfile bare_host "github.token.gpg"
           (initial_world bare_host) eq_refl (or_introl eq_refl)).
Defined.

(** ** 6.4 Writing the documents *)

Ltac world_eq :=
  unfold logged, document, archive_echo; cbn;
  repeat rewrite <- app_assoc; cbn; rewrite ?app_nil_r; reflexivity.

Lemma write_file_runs (h : Host) (path : string) (text : M string) (w : World)
      (t : string) :
  writable h path = true ->
  (forall w0, text w0 = (inr t, w0)) ->
  write_file h path text w = (inr tt, logged [] [] (document path t) w).
Proof.
  intros Hw Ht. unfold write_file. rewrite Hw, Ht. f_equal. world_eq.
Qed.

Lemma write_file_raises (h : Host) (path : string) (text : M string) (w : World)
      (e : exn) :
  writable h path = true ->
  (forall w0, text w0 = (inl e, w0)) ->
  write_file h path text w = (inl e, logged [] [] [(path, EmptyString)] w).
Proof.
  intros Hw Ht. unfold write_file. rewrite Hw, Ht. f_equal. world_eq.
Qed.

Lemma gen_release_notes_raises (h : Host) (g : Globals) (template : string)
      (w : World) (e : exn) :
  _get_milestone (proj_version g) (iter_milestones h) = inl e ->
  _gen_release_notes h g template w = (inl e, w).
Proof. intros Hm. unfold _gen_release_notes, bind, lift. now rewrite Hm. Qed.

Lemma release_notes_runs (h : Host) (g : Globals) (w : World) (milestone : Milestone) :
  writable h (proj_release_notes_html_file g) = true ->
  _get_milestone (proj_version g) (iter_milestones h) = inr milestone ->
  release_notes h g w
  = (inr tt,
     logged [Printed ("Written " ++ proj_release_notes_html_file g)] []
            (document (proj_release_notes_html_file g)
               (notes_html (proj_name g) (proj_version g)
                  (closed_issues_of h milestone) (milestone_url_of milestone))) w).
Proof.
  intros Hw Hm. unfold release_notes, bind.
  rewrite (write_file_runs h _ _ w _ Hw
             (fun w0 => proj2 (gen_release_notes_texts h g w0 milestone Hm))).
  unfold puts, print. f_equal. world_eq.
Qed.

Lemma release_notes_inr (h : Host) (g : Globals) (w w1 : World) :
  release_notes h g w = (inr tt, w1) ->
  exists milestone,
    _get_milestone (proj_version g) (iter_milestones h) = inr milestone
    /\ w1 = logged [Printed ("Written " ++ proj_release_notes_html_file g)] []
              (document (proj_release_notes_html_file g)
                 (notes_html (proj_name g) (proj_version g)
                    (closed_issues_of h milestone) (milestone_url_of milestone))) w.
Proof.
  intros H.
  destruct (writable h (proj_release_notes_html_file g)) eqn:Hw.
  - destruct (_get_milestone (proj_version g) (iter_milestones h)) as [e|m] eqn:Hm.
    + unfold release_notes, bind in H.
      rewrite (write_file_raises h _ _ w e Hw
                 (fun w0 => gen_release_notes_raises h g _ w0 e Hm)) in H.
      discriminate.
    + exists m. split; [reflexivity|].
      rewrite (release_notes_runs h g w m Hw Hm) in H. now injection H.
  - unfold release_notes, bind, write_file in H. rewrite Hw in H. discriminate.
Qed.

(** X6.  When no milestone matches the version, the release-notes action
    raises the milestone-not-found exception after it has opened the notes
    file for writing: the file is left empty, and the line that reports
    the file as written is not printed. *)
Theorem X6_release_notes_failure_leaves_empty_file :
  forall (h : Host) (g : Globals) (w : World),
    writable h (proj_release_notes_html_file g) = true ->
    Forall (fun m => ~ is_prefix (m_title m) (proj_version g)) (iter_milestones h) ->
    release_notes h g w
    = (inl (MilestoneNotFound (proj_version g)),
       logged [] [] [(proj_release_notes_html_file g, EmptyString)] w)
    /\ written (proj_release_notes_html_file g) (snd (release_notes h g w))
       = Some EmptyString.
Proof.
  intros h g w Hw Hnone. apply _get_milestone_missing in Hnone.
  assert (H : release_notes h g w
              = (inl (MilestoneNotFound (proj_version g)),
                 logged [] [] [(proj_release_notes_html_file g, EmptyString)] w)).
  { unfold release_notes, bind.
    now rewrite (write_file_raises h _ _ w _ Hw
                   (fun w0 => gen_release_notes_raises h g _ w0 _ Hnone)). }
  split; [exact H|]. rewrite H. unfold written. cbn. now rewrite String.eqb_refl.
Qed.

(** X6 on the machine whose only milestone is 3.0. *)
Lemma X6_release_notes_failure_leaves_empty_file_witness :
  release_notes bare_host demo_globals (initial_world bare_host)
  = (inl (MilestoneNotFound (proj_version demo_globals)),
     logged [] [] [(proj_release_notes_html_file demo_globals, EmptyString)]
            (initial_world bare_host))
  /\ written (proj_release_notes_html_file demo_globals)
             (snd (release_notes bare_host demo_globals (initial_world bare_host)))
     = Some EmptyString.
Proof.
  apply (X6_release_notes_failure_leaves_empty_file bare_host demo_globals
           (initial_world bare_host) eq_refl).
  repeat constructor. intros [rest H]. discriminate H.
Defined.

(** ** 6.5 The update feed, stage by stage *)

Lemma write_file_lift_inr (h : Host) (path : string) (r : exn + string) (w w' : World) :
  write_file h path (lift r) w = (inr tt, w') ->
  exists t, r = inr t /\ w' = logged [] [] (document path t) w.
Proof.
  unfold write_file, lift. destruct (writable h path); [|discriminate].
  destruct r as [e|t]; [discriminate|].
  intros [= <-]. exists t. split; [reflexivity|]. world_eq.
Qed.

(** X7.  When the descriptor has no key [SUFeedURL] (keys are the
    elements at even positions of the dictionary), the feed action raises
    before any stage starts: no command is run, nothing is printed or
    written. *)
Theorem X7_feed_url_missing_stops_before_build :
  forall (h : Host) (g : Globals) (w : World) (milestone : Milestone)
         (elem : list (option string)),
    _get_milestone (proj_version g) (iter_milestones h) = inr milestone ->
    plist_dict h (proj_info_plist g) = inr elem ->
    Forall (fun kv => text_is "SUFeedURL" (fst kv) = false) (pairs elem) ->
    appcast h g w = (inl (TypeError "'NoneType' object is not subscriptable"), w).
Proof.
  intros h g w milestone elem Hm He Hnone.
  unfold appcast, bind, lift. rewrite Hm, He.
  assert (Hf : _find (fun kv : option string * option string =>
                        text_is "SUFeedURL" (fst kv)) (pairs elem) = None).
  { now apply _find_none. }
  now rewrite Hf.
Qed.

(** X7 on a descriptor where [SUFeedURL] occurs as a value only. *)
Lemma X7_feed_url_missing_stops_before_build_witness :
  appcast no_feed_url_host demo_globals (initial_world no_feed_url_host)
  = (inl (TypeError "'NoneType' object is not subscriptable"),
     initial_world no_feed_url_host).
Proof.
  apply (X7_feed_url_missing_stops_before_build no_feed_url_host demo_globals
           (initial_world no_feed_url_host) {| m_title := "2.1"; m_number := 2 |}
           [Some "CFBundleVersion"; Some "2.1.3"; Some "CFBundleName";
            Some "SUFeedURL"; Some "odd"] eq_refl eq_refl).
  repeat constructor.
Defined.

Lemma appcast_inr (h : Host) (g : Globals) (w w' : World) :
  appcast h g w = (inr tt, w') ->
  exists milestone appcast_url download_size,
    _get_milestone (proj_version g) (iter_milestones h) = inr milestone
    /\ w' = logged
              (archive_echo h g w
                 ++ [Printed ("Written " ++ proj_release_notes_html_file g)])
              [build_command g; ditto_command g; sign_command g]
              (document (proj_appcast_file g)
                 (appcast_xml g appcast_url (now h) download_size
                    (strip (stdout (run_result h (cwd w) (sign_command g)))))
                 ++ document (proj_release_notes_html_file g)
                      (notes_html (proj_name g) (proj_version g)
                         (closed_issues_of h milestone) (milestone_url_of milestone)))
              w.
Proof.
  intros H. unfold appcast in H.
  apply bind_inr in H as (m & w1 & Hm & H). apply lift_inr in Hm as [Hm ->].
  apply bind_inr in H as (elem & w1 & He & H). apply lift_inr in He as [_ ->].
  apply bind_inr in H as (kv & w1 & Hkv & H). apply or_raise_inr in Hkv as [_ ->].
  apply bind_inr in H as (text & w1 & Ht & H). apply or_raise_inr in Ht as [_ ->].
  apply bind_inr in H as ([] & w1 & Ha & H). apply archive_inr in Ha. subst w1.
  apply bind_inr in H as ([] & w2 & Hr & H).
  apply release_notes_inr in Hr as (m' & Hm' & ->).
  assert (m' = m) by congruence. subst m'.
  apply bind_inr in H as (cmd & w3 & Hc & H).
  unfold fmt in Hc. rewrite percent_two in Hc. injection Hc as <- <-.
  apply bind_inr in H as (sign_result & w3 & Hs & H).
  unfold local, bind, run, ret in Hs. injection Hs as <- <-.
  apply bind_inr in H as (size & w3 & Hz & H). apply or_raise_inr in Hz as [_ ->].
  apply write_file_lift_inr in H as (t & Ht & ->).
  rewrite render_appcast in Ht. injection Ht as <-.
  exists m, (strip text), size. split; [exact Hm|]. world_eq.
Qed.

(** X8.  Whenever the feed action completes it ran, in this order, the
    build command, the archive command and the signing command, wrote
    the HTML release notes and then the feed, and printed the outputs of
    build and archive and the line reporting the notes; the working
    directory, the temporary files and the decryption log are as
    before. *)
Theorem X8_feed_stages_in_order :
  forall (h : Host) (g : Globals) (w : World),
    fst (appcast h g w) = inr tt ->
    exists milestone appcast_url download_size,
      _get_milestone (proj_version g) (iter_milestones h) = inr milestone
      /\ snd (appcast h g w)
         = logged
             (archive_echo h g w
                ++ [Printed ("Written " ++ proj_release_notes_html_file g)])
             [build_command g; ditto_command g; sign_command g]
             (document (proj_appcast_file g)
                (appcast_xml g appcast_url (now h) download_size
                   (strip (stdout (run_result h (cwd w) (sign_command g)))))
                ++ document (proj_release_notes_html_file g)
                     (notes_html (proj_name g) (proj_version g)
                        (closed_issues_of h milestone) (milestone_url_of milestone)))
             w.
Proof.
  intros h g w H.
  destruct (appcast h g w) as [r w'] eqn:E. cbn in H. subst r.
  now apply appcast_inr in E.
Qed.

(** X8 on the scenario host. *)
Lemma X8_feed_stages_in_order_witness :
  let h := demo_host in
  let g := demo_globals in
  let w := initial_world demo_host in
  exists milestone appcast_url download_size,
    _get_milestone (proj_version g) (iter_milestones h) = inr milestone
    /\ snd (appcast h g w)
       = logged
           (archive_echo h g w
              ++ [Printed ("Written " ++ proj_release_notes_html_file g)])
           [build_command g; ditto_command g; sign_command g]
           (document (proj_appcast_file g)
              (appcast_xml g appcast_url (now h) download_size
                 (strip (stdout (run_result h (cwd w) (sign_command g)))))
              ++ document (proj_release_notes_html_file g)
                   (notes_html (proj_name g) (proj_version g)
                      (closed_issues_of h milestone) (milestone_url_of milestone)))
           w.
Proof.
  exact (X8_feed_stages_in_order demo_host demo_globals (initial_world demo_host)
           eq_refl).
Defined.

(** ** 6.6 The release action from end to end *)

Lemma percent_open_issue (n : Z) (title : string) :
  percent (tab ++ " * #%s: %s") [PyInt n; PyStr title]
  = Some (tab ++ " * #" ++ str_of_Z n ++ ": " ++ title).
Proof. cbn. now rewrite append_nil_r. Qed.

Lemma open_issue_lines_run (l : list Issue) (w : World) :
  for_each l
    (fun i =>
       line <- fmt (tab ++ " * #%s: %s") [PyInt (i_number i); PyStr (i_title i)] ;;
       print line) w
  = (inr tt, logged (map open_issue_line l) [] [] w).
Proof.
  revert w. induction l as [|i l IH]; intros w.
  - cbn. now rewrite logged_nothing.
  - cbn [for_each]. unfold bind at 1. unfold bind at 1. unfold fmt.
    rewrite percent_open_issue. cbn [or_raise ret print].
    rewrite IH. f_equal. world_eq.
Qed.

Lemma open_issues_run (l : list Issue) (w : World) :
  (if (0 <? length l)%nat then
     puts "Warning: there are still open issues" ;;
     for_each l
       (fun i =>
          line <- fmt (tab ++ " * #%s: %s") [PyInt (i_number i); PyStr (i_title i)] ;;
          print line)
   else ret tt) w
  = (inr tt, logged (open_issues_report l) [] [] w).
Proof.
  destruct l as [|i l].
  - cbn. now rewrite logged_nothing.
  - cbn [length Nat.ltb Nat.leb]. unfold bind at 1, puts, print.
    rewrite open_issue_lines_run. f_equal. world_eq.
Qed.

Lemma bind_runs {A B} (m : M A) (k : A -> M B) (w w' : World) (a : A) :
  m w = (inr a, w') -> bind m k w = k a w'.
Proof. intros H. unfold bind. now rewrite H. Qed.

Lemma puts_runs (s : string) (w : World) :
  puts s w = (inr tt, logged [Printed s] [] [] w).
Proof. unfold puts, print, logged. cbn. now rewrite app_nil_r. Qed.

Lemma puts_then {A} (s : string) (k : M A) (w : World) :
  (puts s ;; k) w = k (logged [Printed s] [] [] w).
Proof. now rewrite (bind_runs _ _ _ _ _ (puts_runs s w)). Qed.

Lemma fmt_then {A} (f : string) (args : list scalar) (k : string -> M A) (w : World)
      (s : string) :
  percent f args = Some s -> (x <- fmt f args ;; k x) w = k s w.
Proof.
  intros H. apply (bind_runs (fmt f args) k w w s). unfold fmt. now rewrite H.
Qed.


Lemma percent_message (v : string) :
  percent ("message: " ++ dq ++ "Added appcast and release notes for the ShiftIt %s release" ++ dq)
          [PyStr v]
  = Some ("message: " ++ dq ++ "Added appcast and release notes for the ShiftIt "
            ++ v ++ " release" ++ dq).
Proof. reflexivity. Qed.

Lemma checklist_runs (h : Host) (g : Globals) (w : World) (milestone : Milestone) :
  _get_milestone (proj_version g) (iter_milestones h) = inr milestone ->
  (puts nl ;;
   puts (repeat "=" 100) ;;
   puts (green "1. Commit appcast and release notes") ;;
   msg <- fmt ("message: " ++ dq ++ "Added appcast and release notes for the ShiftIt %s release" ++ dq)
              [PyStr (proj_version g)] ;;
   puts msg ;;
   puts (green "2. Finnish the git flow") ;;
   puts (green "3. Close milestone at: https://github.com/citadelgrad/ShiftIt/milestones") ;;
   puts (green "4. Release at: https://github.com/citadelgrad/ShiftIt/releases and drafts a new release with:") ;;
   puts (repeat "-" 100) ;;
   puts ("tag: version-" ++ proj_version g) ;;
   puts ("title: " ++ proj_version g) ;;
   puts "description:" ;;
   notes <- _gen_release_notes h g release_notes_template_md ;;
   puts notes ;;
   puts (repeat "-" 100)) w
  = (inr tt,
     logged (checklist g (notes_md (closed_issues_of h milestone)
                            (milestone_url_of milestone))) [] [] w).
Proof.
  intros Hm. rewrite !puts_then.
  rewrite (fmt_then _ _ _ _ _ (percent_message (proj_version g))).
  rewrite !puts_then.
  rewrite (bind_runs _ _ _ _ _ (proj1 (gen_release_notes_texts h g _ milestone Hm))).
  rewrite puts_then, puts_runs. f_equal.
  rewrite !logged_logged. reflexivity.
Qed.

Lemma release_inr (h : Host) (g : Globals) (w w' : World) :
  release h g w = (inr tt, w') ->
  exists milestone appcast_url download_size,
    _get_milestone (proj_version g) (iter_milestones h) = inr milestone
    /\ w' = logged
              (pending_changes_report h w
                 ++ open_issues_report (iter_issues h (m_number milestone) st_open)
                 ++ archive_echo h g w
                 ++ [Printed ("Written " ++ proj_release_notes_html_file g)]
                 ++ checklist g (notes_md (closed_issues_of h milestone)
                                   (milestone_url_of milestone)))
              ["git diff-index --quiet HEAD --";
               build_command g; ditto_command g; sign_command g]
              (document (proj_appcast_file g)
                 (appcast_xml g appcast_url (now h) download_size
                    (strip (stdout (run_result h (cwd w) (sign_command g)))))
                 ++ document (proj_release_notes_html_file g)
                      (notes_html (proj_name g) (proj_version g)
                         (closed_issues_of h milestone) (milestone_url_of milestone)))
              w.
Proof.
  intros H. unfold release in H.
  apply bind_inr in H as ([] & w1 & Hp & H).
  rewrite release_pending_changes_runs in Hp. injection Hp as <-.
  apply bind_inr in H as (m & w1 & Hm & H). apply lift_inr in Hm as [Hm ->].
  apply bind_inr in H as ([] & w2 & Ho & H).
  rewrite open_issues_run in Ho. injection Ho as <-.
  apply bind_inr in H as ([] & w3 & Ha & H). unfold execute in Ha.
  apply appcast_inr in Ha as (m' & url & size & Hm' & ->).
  assert (m' = m) by congruence. subst m'.
  rewrite (checklist_runs h g _ m Hm) in H. injection H as <-.
  exists m, url, size. split; [exact Hm|].
  unfold logged, document, archive_echo, pending_changes_report.
  cbn [out files cwd tempfiles gpg_calls commands].
  repeat rewrite <- app_assoc. cbn [app]. now rewrite ?app_nil_r.
Qed.

(** X9.  Whenever the release action completes, what it printed is, in
    this order: the output of the working-tree check and its warning, the
    warning about open issues with one line per open issue when there
    are any, the outputs of build and archive, the line reporting the
    notes, and the checklist with the Markdown notes; it ran the check,
    build, archive and signing commands in this order and wrote the HTML
    notes and then the feed. *)
Theorem X9_release_transcript :
  forall (h : Host) (g : Globals) (w : World),
    fst (release h g w) = inr tt ->
    exists milestone appcast_url download_size,
      _get_milestone (proj_version g) (iter_milestones h) = inr milestone
      /\ snd (release h g w)
         = logged
             (pending_changes_report h w
                ++ open_issues_report (iter_issues h (m_number milestone) st_open)
                ++ archive_echo h g w
                ++ [Printed ("Written " ++ proj_release_notes_html_file g)]
                ++ checklist g (notes_md (closed_issues_of h milestone)
                                  (milestone_url_of milestone)))
             ["git diff-index --quiet HEAD --";
              build_command g; ditto_command g; sign_command g]
             (document (proj_appcast_file g)
                (appcast_xml g appcast_url (now h) download_size
                   (strip (stdout (run_result h (cwd w) (sign_command g)))))
                ++ document (proj_release_notes_html_file g)
                     (notes_html (proj_name g) (proj_version g)
                        (closed_issues_of h milestone) (milestone_url_of milestone)))
             w.
Proof.
  intros h g w H.
  destruct (release h g w) as [r w'] eqn:E. cbn in H. subst r.
  now apply release_inr in E.
Qed.

(** X9 on the scenario host. *)
Lemma X9_release_transcript_witness :
  let h := demo_host in
  let g := demo_globals in
  let w := initial_world demo_host in
  exists milestone appcast_url download_size,
    _get_milestone (proj_version g) (iter_milestones h) = inr milestone
    /\ snd (release h g w)
       = logged
           (pending_changes_report h w
              ++ open_issues_report (iter_issues h (m_number milestone) st_open)
              ++ archive_echo h g w
              ++ [Printed ("Written " ++ proj_release_notes_html_file g)]
              ++ checklist g (notes_md (closed_issues_of h milestone)
                                (milestone_url_of milestone)))
           ["git diff-index --quiet HEAD --";
            build_command g; ditto_command g; sign_command g]
           (document (proj_appcast_file g)
              (appcast_xml g appcast_url (now h) download_size
                 (strip (stdout (run_result h (cwd w) (sign_command g)))))
              ++ document (proj_release_notes_html_file g)
                   (notes_html (proj_name g) (proj_version g)
                      (closed_issues_of h milestone) (milestone_url_of milestone)))
           w.
Proof.
  exact (X9_release_transcript demo_host demo_globals (initial_world demo_host) eq_refl).
Defined.

(** ** 6.7 The settings printed by the info action *)

Lemma proj_bindings_of_globals (h : Host) (g : Globals) :
  filter (fun kv => startswith (fst kv) "proj_") (globals_items h g) = proj_bindings g.
Proof. unfold globals_items. destruct (sh_importable h); reflexivity. Qed.

(** X10.  The info action prints the heading and then one line per name
    of the module that starts with [proj_], sixteen in all, in the order
    the names were first bound, each with the prefix removed; a name bound
    twice keeps its first place and shows its last value.  Nothing else
    is printed, run or written. *)
Theorem X10_info_lists_the_settings_in_binding_order :
  forall (h : Host) (g : Globals) (w : World),
    info h g w
    = (inr tt,
       logged (Printed "Build info:" :: map info_line (proj_bindings g)) [] [] w).
Proof.
  intros h g w. rewrite info_runs, proj_bindings_of_globals. f_equal.
  unfold logged. cbn [app]. now rewrite app_nil_r.
Qed.

(** ** 6.8 Loading the module *)

Lemma percent_version_command (p : string) :
  percent "defaults read %s CFBundleVersion" [PyStr p]
  = Some ("defaults read " ++ p ++ " CFBundleVersion").
Proof. reflexivity. Qed.

Lemma _get_bundle_version_runs (h : Host) (info_plist : string) (w : World) :
  _get_bundle_version h info_plist w
  = (inr (strip (stdout (run_result h (cwd w)
                           ("defaults read " ++ info_plist ++ " CFBundleVersion")))),
     logged [] ["defaults read " ++ info_plist ++ " CFBundleVersion"] [] w).
Proof.
  unfold _get_bundle_version.
  rewrite (fmt_then _ _ _ _ _ (percent_version_command info_plist)).
  unfold local, bind, run, ret, logged. cbn. now rewrite app_nil_r.
Qed.

(** X11.  When [SHIFTIT_GITHUB_USER] or [SHIFTIT_GITHUB_REPO] is not in
    the environment, loading the module raises [KeyError] for a missing
    name before anything else happens: no credential is resolved, no
    command is run. *)
Theorem X11_missing_repository_setting_stops_the_load :
  forall (h : Host) (w : World) (key : string),
    In key ["SHIFTIT_GITHUB_USER"; "SHIFTIT_GITHUB_REPO"] ->
    Mustache.lookup key (environ h) = None ->
    exists missing,
      load_module h w = (inl (KeyError missing), w)
      /\ In missing ["SHIFTIT_GITHUB_USER"; "SHIFTIT_GITHUB_REPO"]
      /\ Mustache.lookup missing (environ h) = None.
Proof.
  intros h w key Hin Hnone.
  destruct (Mustache.lookup "SHIFTIT_GITHUB_USER" (environ h)) as [user|] eqn:Hu.
  - exists "SHIFTIT_GITHUB_REPO".
    assert (Hr : Mustache.lookup "SHIFTIT_GITHUB_REPO" (environ h) = None).
    { destruct Hin as [<-|[<-|[]]]; congruence. }
    split; [|split; [right; left; reflexivity | exact Hr]].
    unfold load_module.
    rewrite (bind_runs _ _ w w user) by (unfold environ_item; now rewrite Hu).
    unfold bind at 1. unfold environ_item. now rewrite Hr.
  - exists "SHIFTIT_GITHUB_USER".
    split; [|split; [left; reflexivity | exact Hu]].
    unfold load_module. unfold bind at 1. unfold environ_item. now rewrite Hu.
Qed.

(** X11 on the machine that has the user but not the repository. *)
Lemma X11_missing_repository_setting_stops_the_load_witness :
  exists missing,
    load_module bare_host (initial_world bare_host)
    = (inl (KeyError missing), initial_world bare_host)
    /\ In missing ["SHIFTIT_GITHUB_USER"; "SHIFTIT_GITHUB_REPO"]
    /\ Mustache.lookup missing (environ bare_host) = None.
Proof.
  exact (X11_missing_repository_setting_stops_the_load bare_host
           (initial_world bare_host) "SHIFTIT_GITHUB_REPO"
           (or_intror (or_introl eq_refl)) eq_refl).
Defined.

(** X12.  The token is read last.  With a plain token path whose file
    cannot be read, loading the module raises [OSError] for that path
    only after the version has been asked of the descriptor: that one
    command has run, hidden, and nothing was printed or written. *)
Theorem X12_unreadable_token_fails_after_the_version_is_read :
  forall (h : Host) (w : World) (user repo : string),
    Mustache.lookup "SHIFTIT_GITHUB_USER" (environ h) = Some user ->
    Mustache.lookup "SHIFTIT_GITHUB_REPO" (environ h) = Some repo ->
    endswith (configured_token_path h) ".gpg" = false ->
    file_text h (configured_token_path h) = None ->
    load_module h w
    = (inl (OSError (configured_token_path h)), logged [] [version_command w] [] w).
Proof.
  intros h w user repo Hu Hr Hplain Hnone.
  unfold load_module.
  rewrite (bind_runs _ _ w w user) by (unfold environ_item; now rewrite Hu).
  rewrite (bind_runs _ _ w w repo) by (unfold environ_item; now rewrite Hr).
  rewrite (bind_runs _ _ w w (configured_token_path h))
    by (unfold get_decrypted_key_path; now rewrite Hplain).
  rewrite (bind_runs _ _ w w (cwd w)) by reflexivity.
  cbv zeta.
  rewrite (bind_runs _ _ _ _ _ (_get_bundle_version_runs h _ w)).
  unfold bind at 1. rewrite percent_download_url. cbn [or_raise ret].
  unfold bind at 1. unfold _load_github_token, bind at 1. rewrite Hnone.
  reflexivity.
Qed.

(** X12 on the machine without the token file. *)
Lemma X12_unreadable_token_fails_after_the_version_is_read_witness :
  load_module no_token_host (initial_world no_token_host)
  = (inl (OSError (configured_token_path no_token_host)),
     logged [] [version_command (initial_world no_token_host)] []
            (initial_world no_token_host)).
Proof.
  exact (X12_unreadable_token_fails_after_the_version_is_read no_token_host
           (initial_world no_token_host) "citadelgrad" "ShiftIt"
           eq_refl eq_refl eq_refl eq_refl).
Defined.

(** The no-break space and the next-line control are white space too. *)
Lemma strip_no_break_space :
  strip (String (ascii_of_nat 160) ("token" ++ String (ascii_of_nat 133) nl)) = "token".
Proof. reflexivity. Qed.

Lemma lstrip_head (s : string) (c : ascii) (s' : string) :
  lstrip s = String c s' -> isspace c = false.
Proof.
  induction s as [|d s IH]; cbn; [discriminate|].
  destruct (isspace d) eqn:Hd; [exact IH|]. intros [= <- _]. exact Hd.
Qed.

Lemma rstrip_last (s : string) (c : ascii) (s' : string) :
  rstrip s = String c s' -> isspace (last_char c s') = false.
Proof.
  revert c s'. induction s as [|d s IH]; intros c s'; cbn; [discriminate|].
  destruct (rstrip s) as [|e r] eqn:Hr.
  - destruct (isspace d) eqn:Hd; [discriminate|]. intros [= <- <-]. exact Hd.
  - intros [= <- <-]. cbn. now apply IH.
Qed.

Lemma rstrip_head (c : ascii) (s : string) :
  rstrip (String c s) = EmptyString \/ exists s', rstrip (String c s) = String c s'.
Proof.
  cbn. destruct (rstrip s) as [|e r].
  - destruct (isspace c); [now left | right; now eexists].
  - right. now eexists.
Qed.

Lemma trimmed_strip (s : string) : trimmed (strip s) = true.
Proof.
  unfold strip. destruct (lstrip s) as [|c s1] eqn:Hl; [reflexivity|].
  apply lstrip_head in Hl.
  destruct (rstrip_head c s1) as [->|[s' Hs]]; [reflexivity|].
  rewrite Hs. unfold trimmed. rewrite Hl. apply rstrip_last in Hs. now rewrite Hs.
Qed.

Lemma load_module_trimmed (h : Host) (w w' : World) (g : Globals) :
  load_module h w = (inr g, w') ->
  trimmed (proj_version g) = true /\ trimmed (proj_github_token g) = true.
Proof.
  unfold load_module. intros H.
  apply bind_inr in H as (user & w1 & _ & H).
  apply bind_inr in H as (repo & w2 & _ & H).
  apply bind_inr in H as (token_file & w3 & _ & H).
  apply bind_inr in H as (here & w4 & _ & H).
  apply bind_inr in H as (version & w5 & Hv & H).
  rewrite _get_bundle_version_runs in Hv. injection Hv as <- _.
  apply bind_inr in H as (url & w6 & _ & H).
  apply bind_inr in H as (token & w7 & Htok & H).
  unfold _load_github_token in Htok.
  apply bind_inr in Htok as (text & w8 & _ & Htok).
  injection Htok as <- _. injection H as <- _. cbn.
  split; apply trimmed_strip.
Qed.

(** X13.  Whenever the settings of the module are bound, the version and
    the token it holds start and end with a character that is not white
    space (or are empty), whatever the descriptor tool printed and
    whatever the token file contains; white space is what [str.isspace]
    accepts, the no-break space and the next-line control included. *)
Theorem X13_version_and_token_are_trimmed :
  forall (h : Host) (w : World) (g : Globals),
    fst (load_module h w) = inr g ->
    trimmed (proj_version g) = true /\ trimmed (proj_github_token g) = true.
Proof.
  intros h w g H. destruct (load_module h w) as [r w'] eqn:E. cbn in H. subst r.
  now apply load_module_trimmed in E.
Qed.

(** X13 on the scenario host, where both texts end with a line end. *)
Lemma X13_version_and_token_are_trimmed_witness :
  trimmed (proj_version demo_globals) = true
  /\ trimmed (proj_github_token demo_globals) = true.
Proof.
  exact (X13_version_and_token_are_trimmed demo_host (initial_world demo_host)
           demo_globals eq_refl).
Defined.

(** ** 6.9 Order of the closed issues, pairs of the descriptor *)

Lemma sort_by_ascending {A} (key : A -> Z) (l : list A) :
  StronglySorted (key_le key) l -> sort_by key l = l.
Proof.
  induction 1 as [|x l Hs IH Hx]; [reflexivity|].
  cbn [sort_by]. rewrite IH. destruct l as [|y rest]; [reflexivity|].
  cbn [insert_by]. inversion Hx as [|? ? Hxy _]; subst.
  unfold key_le in Hxy. apply Z.leb_le in Hxy. now rewrite Hxy.
Qed.

(** X14.  When the tracker yields the closed issues already in ascending
    order of closing time, sorting changes nothing: the notes list them
    in the order fetched. *)
Theorem X14_ascending_issues_keep_their_order :
  forall (h : Host) (milestone : Milestone),
    StronglySorted (key_le i_closed_at)
      (iter_issues h (m_number milestone) st_closed) ->
    closed_issues_of h milestone = iter_issues h (m_number milestone) st_closed.
Proof. intros h milestone. apply sort_by_ascending. Qed.

(** X14 on the host whose tracker answers oldest first. *)
Lemma X14_ascending_issues_keep_their_order_witness :
  closed_issues_of ordered_host {| m_title := "2.1"; m_number := 2 |}
  = iter_issues ordered_host 2 st_closed.
Proof.
  apply (X14_ascending_issues_keep_their_order ordered_host
           {| m_title := "2.1"; m_number := 2 |}).
  cbn. repeat constructor. unfold key_le. cbn. lia.
Defined.

Lemma pairs_cover {A} (l : list A) :
  (exists rest, l = (flat_map unpair (pairs l) ++ rest)%list
                /\ length rest = if Nat.odd (length l) then 1%nat else 0%nat)
  /\ forall x, exists rest,
       x :: l = (flat_map unpair (pairs (x :: l)) ++ rest)%list
       /\ length rest = if Nat.odd (length (x :: l)) then 1%nat else 0%nat.
Proof.
  induction l as [|y l [(rest & Hl & Hn) IH]].
  - split; [exists []; now split|]. intros x. exists [x]. now split.
  - split; [apply IH|]. intros x. exists rest. split.
    + cbn [pairs flat_map unpair fst snd app]. now rewrite <- Hl.
    + exact Hn.
Qed.

(** X15.  Pairing the children of the descriptor's dictionary takes them
    two by two in order: the pairs, laid end to end, are the children
    again, except for the last child when their number is odd, which is
    in no pair. *)
Theorem X15_pairs_take_consecutive_elements :
  forall (A : Type) (l : list A),
    exists rest,
      l = (flat_map unpair (pairs l) ++ rest)%list
      /\ length rest = if Nat.odd (length l) then 1%nat else 0%nat.
Proof. intros A l. apply pairs_cover. Qed.

(** ** 6.10 Stopping half way *)

Lemma pending_changes_run (h : Host) (w : World) :
  release_pending_changes h w
  = (inr tt, logged (pending_changes_report h w) ["git diff-index --quiet HEAD --"] [] w).
Proof.
  rewrite release_pending_changes_runs. f_equal.
  unfold logged, pending_changes_report. cbn. now rewrite <- app_assoc.
Qed.

(** X16.  When no milestone matches the version, the release action has
    run the working-tree check, and printed its warning, but nothing
    more: it raises the milestone-not-found exception before building.
    The feed action, run alone, raises it before doing anything. *)
Theorem X16_no_milestone_stops_the_release_after_the_check :
  forall (h : Host) (g : Globals) (w : World),
    Forall (fun m => ~ is_prefix (m_title m) (proj_version g)) (iter_milestones h) ->
    release h g w
    = (inl (MilestoneNotFound (proj_version g)),
       logged (pending_changes_report h w) ["git diff-index --quiet HEAD --"] [] w)
    /\ appcast h g w = (inl (MilestoneNotFound (proj_version g)), w).
Proof.
  intros h g w Hnone. apply _get_milestone_missing in Hnone. split.
  - unfold release. rewrite (bind_runs _ _ _ _ _ (pending_changes_run h w)).
    unfold bind at 1. unfold lift. now rewrite Hnone.
  - unfold appcast. unfold bind at 1. unfold lift. now rewrite Hnone.
Qed.

(** X16 on the machine whose only milestone is 3.0. *)
Lemma X16_no_milestone_stops_the_release_after_the_check_witness :
  release bare_host demo_globals (initial_world bare_host)
  = (inl (MilestoneNotFound (proj_version demo_globals)),
     logged (pending_changes_report bare_host (initial_world bare_host))
            ["git diff-index --quiet HEAD --"] [] (initial_world bare_host))
  /\ appcast bare_host demo_globals (initial_world bare_host)
     = (inl (MilestoneNotFound (proj_version demo_globals)), initial_world bare_host).
Proof.
  apply (X16_no_milestone_stops_the_release_after_the_check bare_host demo_globals
           (initial_world bare_host)).
  repeat constructor. intros [rest H]. discriminate H.
Defined.

(** X17.  When the archive is not there once the stages have run, the
    feed action raises [OSError] for the archive path after it has built,
    archived, written the release notes and run the signing tool; the
    feed file is not opened. *)
Theorem X17_missing_archive_leaves_the_feed_unwritten :
  forall (h : Host) (g : Globals) (w : World) (milestone : Milestone)
         (elem : list (option string)) (key : option string) (text : string),
    _get_milestone (proj_version g) (iter_milestones h) = inr milestone ->
    plist_dict h (proj_info_plist g) = inr elem ->
    _find (fun kv => text_is "SUFeedURL" (fst kv)) (pairs elem) = Some (key, Some text) ->
    isdir h (proj_src_dir g) = true ->
    isdir h (cwd w) = true ->
    writable h (proj_release_notes_html_file g) = true ->
    getsize h (proj_archive_path g) = None ->
    appcast h g w
    = (inl (OSError (proj_archive_path g)),
       logged
         (archive_echo h g w ++ [Printed ("Written " ++ proj_release_notes_html_file g)])
         [build_command g; ditto_command g; sign_command g]
         (document (proj_release_notes_html_file g)
            (notes_html (proj_name g) (proj_version g)
               (closed_issues_of h milestone) (milestone_url_of milestone)))
         w).
Proof.
  intros h g w milestone elem key text Hm He Hf Hs Hc Hw Hz.
  unfold appcast.
  rewrite (bind_runs _ _ w w milestone) by (unfold lift; now rewrite Hm).
  rewrite (bind_runs _ _ w w elem) by (unfold lift; now rewrite He).
  rewrite (bind_runs _ _ w w (key, Some text)) by now rewrite Hf.
  rewrite (bind_runs _ _ w w text) by reflexivity.
  unfold execute.
  rewrite (bind_runs _ _ _ _ _ (archive_runs h g w Hs Hc)).
  rewrite (bind_runs _ _ _ _ _ (release_notes_runs h g _ milestone Hw Hm)).
  rewrite (fmt_then _ _ _ _ _ (percent_two _ _)).
  unfold bind at 1. unfold local, bind at 1, run, ret. cbn [fst snd].
  unfold bind at 1. rewrite Hz. cbn [or_raise raise].
  f_equal. unfold sign_command. world_eq.
Qed.

(** X17 on the machine where the archive has no size. *)
Lemma X17_missing_archive_leaves_the_feed_unwritten_witness :
  let h := no_archive_host in
  let g := demo_globals in
  let w := initial_world no_archive_host in
  appcast h g w
  = (inl (OSError (proj_archive_path g)),
     logged
       (archive_echo h g w ++ [Printed ("Written " ++ proj_release_notes_html_file g)])
       [build_command g; ditto_command g; sign_command g]
       (document (proj_release_notes_html_file g)
          (notes_html (proj_name g) (proj_version g)
             (closed_issues_of h {| m_title := "2.1"; m_number := 2 |})
             (milestone_url_of {| m_title := "2.1"; m_number := 2 |})))
       w).
Proof.
  exact (X17_missing_archive_leaves_the_feed_unwritten no_archive_host demo_globals
           (initial_world no_archive_host) {| m_title := "2.1"; m_number := 2 |}
           [Some "CFBundleVersion"; Some "2.1.3"; Some "SUFeedURL";
            Some "https://raw.github.com/citadelgrad/ShiftIt/master/release/appcast.xml"]
           (Some "SUFeedURL")
           "https://raw.github.com/citadelgrad/ShiftIt/master/release/appcast.xml"
           eq_refl eq_refl eq_refl eq_refl eq_refl eq_refl eq_refl).
Defined.

(** ** 6.11 Running to completion *)

(** X18.  With both repository settings in the environment and a plain
    token path whose file can be read, the statements that bind the
    settings of the module, up to the reading of the token, run to their
    end whatever the descriptor tool printed and whatever its exit
    status: they have run that one command, hidden, printed nothing,
    decrypted nothing and written nothing; the version is the trimmed
    output of the command and the token the trimmed text of the file.
    The log-in that follows is not part of the statement. *)
Theorem X18_load_runs_one_hidden_command :
  forall (h : Host) (w : World) (user repo text : string),
    Mustache.lookup "SHIFTIT_GITHUB_USER" (environ h) = Some user ->
    Mustache.lookup "SHIFTIT_GITHUB_REPO" (environ h) = Some repo ->
    endswith (configured_token_path h) ".gpg" = false ->
    file_text h (configured_token_path h) = Some text ->
    exists g,
      load_module h w = (inr g, logged [] [version_command w] [] w)
      /\ proj_version g = strip (stdout (run_result h (cwd w) (version_command w)))
      /\ proj_github_token g = strip text
      /\ proj_github_token_file g = configured_token_path h
      /\ SHIFTIT_GITHUB_USER g = user
      /\ SHIFTIT_GITHUB_REPO g = repo.
Proof.
  intros h w user repo text Hu Hr Hplain Htext.
  unfold load_module.
  rewrite (bind_runs _ _ w w user) by (unfold environ_item; now rewrite Hu).
  rewrite (bind_runs _ _ w w repo) by (unfold environ_item; now rewrite Hr).
  rewrite (bind_runs _ _ w w (configured_token_path h))
    by (unfold get_decrypted_key_path; now rewrite Hplain).
  rewrite (bind_runs _ _ w w (cwd w)) by reflexivity.
  cbv zeta.
  rewrite (bind_runs _ _ _ _ _ (_get_bundle_version_runs h _ w)).
  unfold bind at 1. rewrite percent_download_url. cbn [or_raise ret].
  unfold bind at 1. unfold _load_github_token, bind at 1. rewrite Htext.
  cbn [or_raise ret]. eexists. split; [reflexivity|]. cbn. repeat split.
Qed.

(** X18 on the scenario host. *)
Lemma X18_load_runs_one_hidden_command_witness :
  exists g,
    load_module demo_host (initial_world demo_host)
    = (inr g, logged [] [version_command (initial_world demo_host)] []
                (initial_world demo_host))
    /\ proj_version g
       = strip (stdout (run_result demo_host (cwd (initial_world demo_host))
                          (version_command (initial_world demo_host))))
    /\ proj_github_token g = strip ("0123456789abcdef" ++ nl)
    /\ proj_github_token_file g = configured_token_path demo_host
    /\ SHIFTIT_GITHUB_USER g = "citadelgrad"
    /\ SHIFTIT_GITHUB_REPO g = "ShiftIt".
Proof.
  exact (X18_load_runs_one_hidden_command demo_host (initial_world demo_host)
           "citadelgrad" "ShiftIt" ("0123456789abcdef" ++ nl)
           eq_refl eq_refl eq_refl eq_refl).
Defined.

Lemma appcast_runs :
  forall (h : Host) (g : Globals) (w : World) (milestone : Milestone)
         (elem : list (option string)) (key : option string) (text : string)
         (download_size : Z),
    _get_milestone (proj_version g) (iter_milestones h) = inr milestone ->
    plist_dict h (proj_info_plist g) = inr elem ->
    _find (fun kv => text_is "SUFeedURL" (fst kv)) (pairs elem) = Some (key, Some text) ->
    isdir h (proj_src_dir g) = true ->
    isdir h (cwd w) = true ->
    writable h (proj_release_notes_html_file g) = true ->
    getsize h (proj_archive_path g) = Some download_size ->
    writable h (proj_appcast_file g) = true ->
    appcast h g w
    = (inr tt,
       logged
         (archive_echo h g w ++ [Printed ("Written " ++ proj_release_notes_html_file g)])
         [build_command g; ditto_command g; sign_command g]
         (document (proj_appcast_file g)
            (appcast_xml g (strip text) (now h) download_size
               (strip (stdout (run_result h (cwd w) (sign_command g)))))
            ++ document (proj_release_notes_html_file g)
                 (notes_html (proj_name g) (proj_version g)
                    (closed_issues_of h milestone) (milestone_url_of milestone)))
         w).
Proof.
  intros h g w milestone elem key text size Hm He Hf Hs Hc Hw Hz Hwf.
  unfold appcast.
  rewrite (bind_runs _ _ w w milestone) by (unfold lift; now rewrite Hm).
  rewrite (bind_runs _ _ w w elem) by (unfold lift; now rewrite He).
  rewrite (bind_runs _ _ w w (key, Some text)) by now rewrite Hf.
  rewrite (bind_runs _ _ w w text) by reflexivity.
  unfold execute.
  rewrite (bind_runs _ _ _ _ _ (archive_runs h g w Hs Hc)).
  rewrite (bind_runs _ _ _ _ _ (release_notes_runs h g _ milestone Hw Hm)).
  rewrite (fmt_then _ _ _ _ _ (percent_two _ _)).
  unfold bind at 1. unfold local, bind at 1, run, ret. cbn [fst snd].
  unfold bind at 1. rewrite Hz. cbn [or_raise ret].
  erewrite write_file_runs;
    [| exact Hwf | intros w0; unfold lift; now rewrite render_appcast].
  f_equal. unfold sign_command. world_eq.
Qed.

(** X19.  The feed action completes when a milestone matches, the
    descriptor has a text under [SUFeedURL], the source and current
    directories exist, both documents can be opened and the archive has a
    size; the exit statuses of the build, archive and signing commands
    play no part.  The feed then carries the trimmed text of the first
    [SUFeedURL] value, the size of the archive and the trimmed output of
    the signing tool. *)
Theorem X19_feed_completes_whatever_the_commands_report :
  forall (h : Host) (g : Globals) (w : World) (milestone : Milestone)
         (elem : list (option string)) (key : option string) (text : string)
         (download_size : Z),
    _get_milestone (proj_version g) (iter_milestones h) = inr milestone ->
    plist_dict h (proj_info_plist g) = inr elem ->
    _find (fun kv => text_is "SUFeedURL" (fst kv)) (pairs elem) = Some (key, Some text) ->
    isdir h (proj_src_dir g) = true ->
    isdir h (cwd w) = true ->
    writable h (proj_release_notes_html_file g) = true ->
    getsize h (proj_archive_path g) = Some download_size ->
    writable h (proj_appcast_file g) = true ->
    appcast h g w
    = (inr tt,
       logged
         (archive_echo h g w ++ [Printed ("Written " ++ proj_release_notes_html_file g)])
         [build_command g; ditto_command g; sign_command g]
         (document (proj_appcast_file g)
            (appcast_xml g (strip text) (now h) download_size
               (strip (stdout (run_result h (cwd w) (sign_command g)))))
            ++ document (proj_release_notes_html_file g)
                 (notes_html (proj_name g) (proj_version g)
                    (closed_issues_of h milestone) (milestone_url_of milestone)))
         w).
Proof. exact appcast_runs. Qed.

(** X19 on the host where the signing tool fails. *)
Lemma X19_feed_completes_whatever_the_commands_report_witness :
  let h := unsigned_host in
  let g := demo_globals in
  let w := initial_world unsigned_host in
  appcast h g w
  = (inr tt,
     logged
       (archive_echo h g w ++ [Printed ("Written " ++ proj_release_notes_html_file g)])
       [build_command g; ditto_command g; sign_command g]
       (document (proj_appcast_file g)
          (appcast_xml g
             (strip "https://raw.github.com/citadelgrad/ShiftIt/master/release/appcast.xml")
             (now h) 2048
             (strip (stdout (run_result h (cwd w) (sign_command g)))))
          ++ document (proj_release_notes_html_file g)
               (notes_html (proj_name g) (proj_version g)
                  (closed_issues_of h {| m_title := "2.1"; m_number := 2 |})
                  (milestone_url_of {| m_title := "2.1"; m_number := 2 |})))
       w).
Proof.
  exact (X19_feed_completes_whatever_the_commands_report unsigned_host demo_globals
           (initial_world unsigned_host) {| m_title := "2.1"; m_number := 2 |}
           [Some "CFBundleVersion"; Some "2.1.3"; Some "SUFeedURL";
            Some "https://raw.github.com/citadelgrad/ShiftIt/master/release/appcast.xml"]
           (Some "SUFeedURL")
           "https://raw.github.com/citadelgrad/ShiftIt/master/release/appcast.xml"
           2048%Z eq_refl eq_refl eq_refl eq_refl eq_refl eq_refl eq_refl eq_refl).
Defined.

(** ** 6.12 The signature in the feed *)

Lemma signature_attribute_in_feed (g : Globals) (url date : string) (size : Z)
      (signature : string) :
  exists before after,
    appcast_xml g url date size signature
    = before ++ signature_attribute signature ++ after.
Proof.
  unfold appcast_xml.
  match goal with
  | |- exists b a, join_lines ?l = _ =>
      exists (join_lines (firstn 17 l) ++ nl ++ "            "),
             (" />" ++ nl ++ join_lines (skipn 18 l))
  end.
  unfold signature_attribute. cbn [firstn skipn join_lines].
  rewrite !append_assoc. reflexivity.
Qed.

(** C3, as the claim states it, fails: the signing tool exits with status
    0 and prints nothing but a line end, so its trimmed output is empty,
    and the feed stage completes and writes a feed whose signature
    attribute is empty. *)
Lemma C3_counterexample_empty_signature_published :
  let h := blank_signature_host in
  let w := initial_world blank_signature_host in
  let signing := run_result h (cwd w) (sign_command demo_globals) in
  fst (load_module h w) = inr demo_globals
  /\ return_code signing = 0%Z
  /\ strip (stdout signing) = EmptyString
  /\ fst (appcast h demo_globals w) = inr tt
  /\ option_map (fun text => contains text ("sparkle:edSignature=" ++ dq ++ dq ++ " />"))
       (written (proj_appcast_file demo_globals) (snd (appcast h demo_globals w)))
     = Some true.
Proof. vm_compute. repeat split. Qed.

(** C3, amended.  The feed stage does not test the output of the signing
    tool for emptiness.  In a run whose build, archive and signing
    commands exit with zero, where a milestone matches, the descriptor
    gives the feed URL, the directories exist, both documents can be
    opened and the archive has a size, the stage completes and writes
    the feed template filled in; its signature attribute holds the
    trimmed standard output of the tool, escaped as the template escapes
    every value, and is the empty attribute when the tool printed nothing
    but white space.  What the stage does when a command exits with
    another status is not part of the statement. *)
Theorem C3_feed_embeds_trimmed_signing_output :
  forall (h : Host) (g : Globals) (w : World) (milestone : Milestone)
         (elem : list (option string)) (key : option string) (text : string)
         (download_size : Z),
    _get_milestone (proj_version g) (iter_milestones h) = inr milestone ->
    plist_dict h (proj_info_plist g) = inr elem ->
    _find (fun kv => text_is "SUFeedURL" (fst kv)) (pairs elem) = Some (key, Some text) ->
    isdir h (proj_src_dir g) = true ->
    isdir h (cwd w) = true ->
    writable h (proj_release_notes_html_file g) = true ->
    getsize h (proj_archive_path g) = Some download_size ->
    writable h (proj_appcast_file g) = true ->
    return_code (run_result h (proj_src_dir g) (build_command g)) = 0%Z ->
    return_code (run_result h (cwd w) (ditto_command g)) = 0%Z ->
    return_code (run_result h (cwd w) (sign_command g)) = 0%Z ->
    let signature := strip (stdout (run_result h (cwd w) (sign_command g))) in
    let feed := appcast_xml g (strip text) (now h) download_size signature in
    fst (appcast h g w) = inr tt
    /\ written (proj_appcast_file g) (snd (appcast h g w)) = Some feed
    /\ (exists before after, feed = before ++ signature_attribute signature ++ after)
    /\ (signature = EmptyString ->
        signature_attribute signature = "sparkle:edSignature=" ++ dq ++ dq).
Proof.
  intros h g w milestone elem key text size Hm He Hf Hs Hc Hw Hz Hwf _ _ _.
  cbv zeta.
  rewrite (appcast_runs h g w milestone elem key text size Hm He Hf Hs Hc Hw Hz Hwf).
  cbn [fst snd]. split; [reflexivity|]. split.
  - unfold written, logged, document. cbn [files app Mustache.lookup].
    now rewrite String.eqb_refl.
  - split; [apply signature_attribute_in_feed|].
    intros ->. reflexivity.
Qed.

(** The amended C3 on the host whose signing tool prints a line end and
    exits with zero. *)
Lemma C3_feed_embeds_trimmed_signing_output_witness :
  let h := blank_signature_host in
  let g := demo_globals in
  let w := initial_world blank_signature_host in
  let text := "https://raw.github.com/citadelgrad/ShiftIt/master/release/appcast.xml" in
  let signature := strip (stdout (run_result h (cwd w) (sign_command g))) in
  let feed := appcast_xml g (strip text) (now h) 2048 signature in
  fst (appcast h g w) = inr tt
  /\ written (proj_appcast_file g) (snd (appcast h g w)) = Some feed
  /\ (exists before after, feed = before ++ signature_attribute signature ++ after)
  /\ (signature = EmptyString ->
      signature_attribute signature = "sparkle:edSignature=" ++ dq ++ dq).
Proof.
  exact (C3_feed_embeds_trimmed_signing_output blank_signature_host demo_globals
           (initial_world blank_signature_host) {| m_title := "2.1"; m_number := 2 |}
           [Some "CFBundleVersion"; Some "2.1.3"; Some "SUFeedURL";
            Some "https://raw.github.com/citadelgrad/ShiftIt/master/release/appcast.xml"]
           (Some "SUFeedURL")
           "https://raw.github.com/citadelgrad/ShiftIt/master/release/appcast.xml"
           2048%Z eq_refl eq_refl eq_refl eq_refl eq_refl eq_refl eq_refl eq_refl
           eq_refl eq_refl eq_refl).
Defined.
